(** * vGPU monitor: the metrics collector of [cmd/vgpu-monitor/metrics.go]

    A shallow embedding of [ClusterManagerCollector.Collect] and of the
    collaborators it talks to (NVML, the pod lister, the container lister,
    the Prometheus constant-metric constructor), followed by the properties
    of one scrape.

    Conventions of the embedding.
    - Go's [int], [int64] and [uint64] are [Z]; every place where the source
      converts or subtracts at a fixed width has the wrap-around written out
      ([int], [sub64]).  [int] is 64 bits wide, as on the amd64 and arm64
      nodes the monitor runs on.
    - A Go [string] is a byte sequence, and so is [string] here: [length] is
      [len], and slicing counts bytes.  The strings the collaborators
      deliver (NVML UUIDs, the namespace and name of a pod, container names,
      the UUIDs of the registry) are taken to be valid UTF-8; a string the
      collector cuts out of one of them need not be, and is checked where
      the source has it checked.
    - A call [f() (T, error)] or [f() (T, nvml.Return)] yields a pair: the
      source receives both components and is free to read the first one
      whatever the second says.
    - Everything the function does to the outside is an [Event] of a trace:
      a metric sent on the channel, a klog line, a line on standard output.
      A Go panic ends the trace; the events before it have happened. *)

From Stdlib Require Import ZArith List String Ascii Bool Lia Sorted.
From Stdlib Require Import DecimalString DecimalPos DecimalZ.
Import ListNotations.
Local Open Scope Z_scope.
Local Open Scope list_scope.

(** ** Machine integers and strings *)

(** The signed [w]-bit integer congruent to [x]. *)
Definition wrap (w x : Z) : Z := (x + 2 ^ (w - 1)) mod 2 ^ w - 2 ^ (w - 1).

(** [int(x)], the conversion to Go's [int]. *)
Definition int (x : Z) : Z := wrap 64 x.

(** [a - b] on [int64]. *)
Definition sub64 (a b : Z) : Z := wrap 64 (a - b).

Definition in_int64 (x : Z) : Prop := - 2 ^ 63 <= x < 2 ^ 63.

(** [fmt.Sprint] of an integer: its decimal numeral. *)
Definition Sprint (z : Z) : string := NilZero.string_of_int (Z.to_int z).

(** [strings.Compare]. *)
Definition strings_Compare (a b : string) : Z :=
  match String.compare a b with
  | Eq => 0
  | Lt => -1
  | Gt => 1
  end.

(** The slice expression [s[lo:hi]] on a string: [None] is the run-time
    panic "slice bounds out of range". *)
Definition slice (s : string) (lo hi : nat) : option string :=
  if (Nat.leb lo hi && Nat.leb hi (String.length s))%bool
  then Some (String.substring lo (hi - lo) s)
  else None.

(** Go's [error]: [None] is [nil]. *)
Definition error : Type := option string.

(** ** Prometheus: descriptors and constant metrics *)

Inductive ValueType : Type := CounterValue | GaugeValue.

Record Desc : Type := NewDesc {
  fqName : string;
  help : string;
  variableLabels : list string
}.

(** A constant metric.  [value] is the integer the source hands to
    [float64(...)] when it builds the metric; the conversion to floating
    point belongs to the constructor and is not modelled. *)
Record Metric : Type := mkMetric {
  desc : Desc;
  valueType : ValueType;
  value : Z;
  labelValues : list string
}.

(** ** Collaborators *)

Module nvml.

Definition Return : Type := Z.
Definition SUCCESS : Return := 0.

Record Memory : Type := { Total : Z; Free : Z; Used : Z }.
Record Utilization : Type := { Gpu : Z; Mem : Z }.

(** A device handle, given by what its three reads answer. *)
Record Device : Type := {
  GetMemoryInfo : Memory * Return;
  GetUUID : string * Return;
  GetUtilizationRates : Utilization * Return
}.

Record Interface : Type := {
  Init : Return;
  DeviceGetCount : Z * Return;
  DeviceGetHandleByIndex : Z -> Device * Return
}.

End nvml.

Module Container.
(** [v1.Container]; the collector reads its name only. *)
Record t : Type := { Name : string }.
End Container.

Module Pod.
(** [v1.Pod], with [Containers] for [Spec.Containers]. *)
Record t : Type := {
  UID : string;
  Name : string;
  Namespace : string;
  Labels : list (string * string);
  Containers : list Container.t
}.
End Pod.

Inductive Selector : Type := Everything.

Record PodLister : Type := { List : Selector -> list Pod.t * error }.

(** The [Info] interface of a usage record, as far as [Collect] calls it.
    [DeviceNum] is an [int], [LastKernelTime] an [int64], [DeviceUUID] a
    string; the other readings are unsigned counters. *)
Record UsageInfo : Type := {
  DeviceNum : Z;
  DeviceUUID : Z -> string;
  DeviceMemoryTotal : Z -> Z;
  DeviceMemoryLimit : Z -> Z;
  DeviceMemoryContextSize : Z -> Z;
  DeviceMemoryModuleSize : Z -> Z;
  DeviceMemoryBufferSize : Z -> Z;
  DeviceMemoryOffset : Z -> Z;
  DeviceSmUtil : Z -> Z;
  LastKernelTime : Z
}.

(** One record of the container registry; [Info = None] is the nil
    interface value. *)
Record ContainerUsage : Type := {
  PodUID : string;
  ContainerName : string;
  Info : option UsageInfo
}.

(** Modelled from the spec: the container registry [nvidia.ContainerLister],
    of which only the calls are in the source.  It holds the current usage
    records.  [Update] ("Refresh() -> error") either installs the refreshed
    records or reports an error and leaves the stale ones in place ("log
    and continue on error (stale data used)"); [ListContainers]
    ("ListAll()") reads the records. *)
Record ContainerLister : Type := {
  containers : list ContainerUsage;
  refresh : list ContainerUsage -> list ContainerUsage + string
}.

Definition Update (l : ContainerLister) : ContainerLister * error :=
  match refresh l (containers l) with
  | inl cs => ({| containers := cs; refresh := refresh l |}, None)
  | inr e => (l, Some e)
  end.

Definition ListContainers (l : ContainerLister) : list ContainerUsage :=
  containers l.

Record ClusterManager : Type := {
  Zone : string;
  PodLister_ : PodLister;
  containerLister : ContainerLister
}.

Record ClusterManagerCollector : Type := { ClusterManager_ : ClusterManager }.

(** What a scrape finds outside the collector: the process-wide NVML
    interface [config.Nvml()] and the clock [time.Now().Unix()]. *)
Record World : Type := {
  Nvml : nvml.Interface;
  Now_Unix : Z
}.

(** ** Effects *)

(** The klog lines of [Collect], one constructor per call site. *)
Inductive LogEntry : Type :=
| InfoStarting
| ErrUpdate (err : string)
| ErrInit (ret : nvml.Return)
| ErrDeviceGetCount (ret : nvml.Return)
| ErrHandle (ret : nvml.Return)
| ErrMemory (ret : nvml.Return)
| ErrUUID (ret : nvml.Return)
| ErrUtilization (ret : nvml.Return)
| ErrListPods (err : string).

Inductive Event : Type :=
| Send (m : Metric)
| Klog (l : LogEntry)
| PodMatched (name namespace : string) (labels : list (string * string))
| ContainerMatched (name : string).

(** A computation: the events it performed and its result, [None] when it
    panicked. *)
Definition M (A : Type) : Type := (list Event * option A)%type.

Definition ret {A : Type} (a : A) : M A := ([], Some a).

Definition bind {A B : Type} (m : M A) (k : A -> M B) : M B :=
  match m with
  | (t, None) => (t, None)
  | (t, Some a) => let '(t', r) := k a in (t ++ t', r)
  end.

Definition panic {A : Type} : M A := ([], None).

Definition emit (e : Event) : M unit := ([e], Some tt).

Declare Scope go_scope.
Delimit Scope go_scope with go.
Notation "x <- m ;; k" := (bind m (fun x => k))
  (at level 61, m at next level, right associativity) : go_scope.
Notation "m ;; k" := (bind m (fun _ => k))
  (at level 61, right associativity) : go_scope.
Local Open Scope go_scope.

(** [for _, x := range l { body }]. *)
Fixpoint forM_ {A : Type} (l : list A) (body : A -> M unit) : M unit :=
  match l with
  | [] => ret tt
  | x :: l' => body x ;; forM_ l' body
  end.

(** The indices of [for i := 0; i < n; i++]. *)
Definition upto (n : Z) : list Z := map Z.of_nat (seq 0 (Z.to_nat n)).

Definition klog (l : LogEntry) : M unit := emit (Klog l).

(** [ch <- m]. *)
Definition send (m : Metric) : M unit := emit (Send m).

(** [lo <= x <= hi] on byte values. *)
Definition within (lo hi x : N) : bool := (N.leb lo x && N.leb x hi)%bool.

(** A UTF-8 continuation byte, 10xxxxxx. *)
Definition continuation (x : N) : bool := within 128%N 191%N x.

(** [utf8.ValidString]: the bytes of [s] are well-formed UTF-8 (no stray
    or missing continuation byte, no overlong form, no surrogate, nothing
    above U+10FFFF). *)
Fixpoint ValidString (s : string) : bool :=
  match s with
  | EmptyString => true
  | String a s1 =>
    let x := N_of_ascii a in
    if N.ltb x 128%N then ValidString s1
    else
      match s1 with
      | EmptyString => false
      | String b s2 =>
        let y := N_of_ascii b in
        if within 194%N 223%N x then (continuation y && ValidString s2)%bool
        else
          match s2 with
          | EmptyString => false
          | String c s3 =>
            let z := N_of_ascii c in
            if within 224%N 239%N x
            then
              ((if N.eqb x 224%N then within 160%N 191%N y
                else if N.eqb x 237%N then within 128%N 159%N y
                else continuation y)
               && continuation z && ValidString s3)%bool
            else
              match s3 with
              | EmptyString => false
              | String d s4 =>
                let u := N_of_ascii d in
                if within 240%N 244%N x
                then
                  ((if N.eqb x 240%N then within 144%N 191%N y
                    else if N.eqb x 244%N then within 128%N 143%N y
                    else continuation y)
                   && continuation z && continuation u
                   && ValidString s4)%bool
                else false
              end
          end
      end
  end.

(** A label value handed to the metric constructor.  A [Text] is a string
    a collaborator delivered, or a decimal numeral: valid UTF-8 by the
    convention above.  A [Cut] is a string the collector sliced out of
    another one; the constructor's check decides about it. *)
Inductive LabelValue : Type :=
| Text (s : string)
| Cut (s : string).

Definition label_string (l : LabelValue) : string :=
  match l with
  | Text s => s
  | Cut s => s
  end.

Definition label_valid (l : LabelValue) : bool :=
  match l with
  | Text _ => true
  | Cut s => ValidString s
  end.

(** [prometheus.MustNewConstMetric]: it panics when the number of label
    values differs from the number of the descriptor's variable labels, and
    when a label value is not valid UTF-8. *)
Definition MustNewConstMetric (d : Desc) (vt : ValueType) (v : Z)
    (lvs : list LabelValue) : M Metric :=
  if (Nat.eqb (List.length lvs) (List.length (variableLabels d))
      && forallb label_valid lvs)%bool
  then ret (mkMetric d vt v (map label_string lvs))
  else panic.

Definition trace {A : Type} (m : M A) : list Event := fst m.
Definition panicked {A : Type} (m : M A) : bool :=
  match snd m with None => true | Some _ => false end.

Definition sent (e : Event) : list Metric :=
  match e with Send m => [m] | _ => [] end.

(** The metrics delivered on the channel, in order. *)
Definition samples_of (t : list Event) : list Metric := flat_map sent t.
Definition samples {A : Type} (m : M A) : list Metric := samples_of (trace m).

(** ** Descriptors used by the collector *)

Definition ctrLabels : list string :=
  ["podnamespace"; "podname"; "ctrname"; "vdeviceid"; "deviceuuid"]%string.

Definition hostGPUdesc : Desc :=
  NewDesc "HostGPUMemoryUsage" "GPU device memory usage"
    ["deviceidx"; "deviceuuid"]%string.

Definition hostGPUUtilizationdesc : Desc :=
  NewDesc "HostCoreUtilization" "GPU core utilization"
    ["deviceidx"; "deviceuuid"]%string.

Definition ctrvGPUdesc : Desc :=
  NewDesc "vGPU_device_memory_usage_in_bytes" "vGPU device usage" ctrLabels.

Definition ctrvGPUlimitdesc : Desc :=
  NewDesc "vGPU_device_memory_limit_in_bytes" "vGPU device limit" ctrLabels.

Definition ctrDeviceMemorydesc : Desc :=
  NewDesc "Device_memory_desc_of_container"
    "Container device meory description"
    (ctrLabels ++ ["context"; "module"; "data"; "offset"]%string).

Definition ctrDeviceUtilizationdesc : Desc :=
  NewDesc "Device_utilization_desc_of_container"
    "Container device utilization description" ctrLabels.

Definition ctrDeviceLastKernelDesc : Desc :=
  NewDesc "Device_last_kernel_of_container"
    "Container device last kernel description" ctrLabels.

(** ** Collect *)

(** Body of the device loop (lines 155-188).  The handle is used whatever
    [DeviceGetHandleByIndex] reported; [memoryUsed] starts at 0 and keeps
    that value when the memory read fails; the memory sample is sent under
    the status of the UUID read, the utilization sample under the status of
    the utilization read, both with the string the UUID read returned. *)
Definition collectDevice (n : nvml.Interface) (ii : Z) : M unit :=
  let '(hdev, nvret) := nvml.DeviceGetHandleByIndex n ii in
  (if nvret =? nvml.SUCCESS then ret tt else klog (ErrHandle nvret)) ;;
  let '(memory, r) := nvml.GetMemoryInfo hdev in
  let memoryUsed := if r =? nvml.SUCCESS then int (nvml.Used memory) else 0 in
  (if r =? nvml.SUCCESS then ret tt else klog (ErrMemory r)) ;;
  let '(uuid, nvret) := nvml.GetUUID hdev in
  (if nvret =? nvml.SUCCESS
   then m <- MustNewConstMetric hostGPUdesc GaugeValue memoryUsed
              [Text (Sprint ii); Text uuid] ;;
        send m
   else klog (ErrUUID nvret)) ;;
  let '(util, nvret) := nvml.GetUtilizationRates hdev in
  if nvret =? nvml.SUCCESS
  then m <- MustNewConstMetric hostGPUUtilizationdesc GaugeValue
             (nvml.Gpu util) [Text (Sprint ii); Text uuid] ;;
       send m
  else klog (ErrUtilization nvret).

(** Lines 146-191: NVML initialisation, device count and device loop. *)
Definition collectHost (n : nvml.Interface) : M unit :=
  let nvret := nvml.Init n in
  (if nvret =? nvml.SUCCESS then ret tt else klog (ErrInit nvret)) ;;
  let '(devnum, nvret) := nvml.DeviceGetCount n in
  if nvret =? nvml.SUCCESS
  then forM_ (upto devnum) (collectDevice n)
  else klog (ErrDeviceGetCount nvret).

(** Body of the slot loop (lines 234-281).  The uuid label is a slice of
    the slot's UUID, so the first constructor call (line 245) panics when
    the cut leaves bytes that are not valid UTF-8.  The label map
    [podlabels] built just before the loop is never read and is left
    out. *)
Definition collectSlot (pod : Pod.t) (ctrName : string) (info : UsageInfo)
    (nowSec : Z) (i : Z) : M unit :=
  match slice (DeviceUUID info i) 0 40 with
  | None => panic
  | Some uuid =>
    let memoryTotal := DeviceMemoryTotal info i in
    let memoryLimit := DeviceMemoryLimit info i in
    let memoryContextSize := DeviceMemoryContextSize info i in
    let memoryModuleSize := DeviceMemoryModuleSize info i in
    let memoryBufferSize := DeviceMemoryBufferSize info i in
    let memoryOffset := DeviceMemoryOffset info i in
    let smUtil := DeviceSmUtil info i in
    let lastKernelTime := LastKernelTime info in
    let base :=
      [Text (Pod.Namespace pod); Text (Pod.Name pod); Text ctrName;
       Text (Sprint i); Cut uuid] in
    m <- MustNewConstMetric ctrvGPUdesc GaugeValue memoryTotal base ;;
    send m ;;
    m <- MustNewConstMetric ctrvGPUlimitdesc GaugeValue memoryLimit base ;;
    send m ;;
    m <- MustNewConstMetric ctrDeviceMemorydesc CounterValue memoryTotal
           (base ++ [Text (Sprint memoryContextSize);
                     Text (Sprint memoryModuleSize);
                     Text (Sprint memoryBufferSize);
                     Text (Sprint memoryOffset)]) ;;
    send m ;;
    m <- MustNewConstMetric ctrDeviceUtilizationdesc GaugeValue smUtil base ;;
    send m ;;
    if 0 <? lastKernelTime
    then
      let lastSec := sub64 nowSec lastKernelTime in
      let lastSec := if lastSec <? 0 then 0 else lastSec in
      m <- MustNewConstMetric ctrDeviceLastKernelDesc GaugeValue lastSec
             base ;;
      send m
    else ret tt
  end.

(** Body of the loop over the pod's containers (lines 218-283). *)
Definition collectCtr (pod : Pod.t) (c : ContainerUsage) (info : UsageInfo)
    (nowSec : Z) (ctr : Container.t) : M unit :=
  let ctrName := ContainerName c in
  if negb (strings_Compare (Container.Name ctr) ctrName =? 0)
  then ret tt
  else
    emit (ContainerMatched (Container.Name ctr)) ;;
    forM_ (upto (DeviceNum info)) (collectSlot pod ctrName info nowSec).

(** Body of the loop over the usage records (lines 206-284). *)
Definition collectRecord (pod : Pod.t) (nowSec : Z) (c : ContainerUsage)
    : M unit :=
  match Info c with
  | None => ret tt
  | Some info =>
    let podUID := PodUID c in
    if negb (strings_Compare (Pod.UID pod) podUID =? 0)
    then ret tt
    else
      emit (PodMatched (Pod.Name pod) (Pod.Namespace pod) (Pod.Labels pod)) ;;
      forM_ (Pod.Containers pod) (collectCtr pod c info nowSec)
  end.

(** Lines 200-285: the join of pods and usage records. *)
Definition collectContainers (pods : list Pod.t) (cs : list ContainerUsage)
    (nowSec : Z) : M unit :=
  forM_ pods (fun pod => forM_ cs (collectRecord pod nowSec)).

(** [ClusterManagerCollector.Collect]: the registry after the refresh and
    the run of the scrape. *)
Definition Collect (cc : ClusterManagerCollector) (w : World)
    : ContainerLister * M unit :=
  let '(lister, err) := Update (containerLister (ClusterManager_ cc)) in
  (lister,
   klog InfoStarting ;;
   (match err with
    | Some e => klog (ErrUpdate e)
    | None => ret tt
    end) ;;
   collectHost (Nvml w) ;;
   let '(pods, err) := List (PodLister_ (ClusterManager_ cc)) Everything in
   (match err with
    | Some e => klog (ErrListPods e)
    | None => ret tt
    end) ;;
   let nowSec := Now_Unix w in
   let containers := ListContainers lister in
   collectContainers pods containers nowSec).

(** The metrics one scrape delivers, and whether it ended in a panic. *)
Definition scrape (cc : ClusterManagerCollector) (w : World) : list Metric :=
  samples (snd (Collect cc w)).

Definition crashed (cc : ClusterManagerCollector) (w : World) : bool :=
  panicked (snd (Collect cc w)).

(** ** The scrape, described

    The sample sequence of a scrape written as a comprehension over the
    devices, the pods, the usage records, the pod's containers and the
    device slots.  The theorems below relate [Collect] to it. *)

(** The records and pods the join of a scrape reads. *)
Definition records (cc : ClusterManagerCollector) : list ContainerUsage :=
  ListContainers (fst (Update (containerLister (ClusterManager_ cc)))).

Definition pods (cc : ClusterManagerCollector) : list Pod.t :=
  fst (List (PodLister_ (ClusterManager_ cc)) Everything).

Definition handle (n : nvml.Interface) (ii : Z) : nvml.Device :=
  fst (nvml.DeviceGetHandleByIndex n ii).

Definition memory_ok (n : nvml.Interface) (ii : Z) : bool :=
  snd (nvml.GetMemoryInfo (handle n ii)) =? nvml.SUCCESS.
Definition uuid_ok (n : nvml.Interface) (ii : Z) : bool :=
  snd (nvml.GetUUID (handle n ii)) =? nvml.SUCCESS.
Definition utilization_ok (n : nvml.Interface) (ii : Z) : bool :=
  snd (nvml.GetUtilizationRates (handle n ii)) =? nvml.SUCCESS.
Definition count_ok (n : nvml.Interface) : bool :=
  snd (nvml.DeviceGetCount n) =? nvml.SUCCESS.

Definition hostLabels (n : nvml.Interface) (ii : Z) : list string :=
  [Sprint ii; fst (nvml.GetUUID (handle n ii))].

Definition memorySample (n : nvml.Interface) (ii : Z) : Metric :=
  mkMetric hostGPUdesc GaugeValue
    (if memory_ok n ii
     then int (nvml.Used (fst (nvml.GetMemoryInfo (handle n ii))))
     else 0)
    (hostLabels n ii).

Definition utilizationSample (n : nvml.Interface) (ii : Z) : Metric :=
  mkMetric hostGPUUtilizationdesc GaugeValue
    (nvml.Gpu (fst (nvml.GetUtilizationRates (handle n ii))))
    (hostLabels n ii).

Definition deviceSamples (n : nvml.Interface) (ii : Z) : list Metric :=
  (if uuid_ok n ii then [memorySample n ii] else [])
  ++ (if utilization_ok n ii then [utilizationSample n ii] else []).

Definition hostSamples (n : nvml.Interface) : list Metric :=
  if count_ok n
  then flat_map (deviceSamples n) (upto (fst (nvml.DeviceGetCount n)))
  else [].

Definition baseLabels (pod : Pod.t) (ctrName : string) (info : UsageInfo)
    (i : Z) : list string :=
  [Pod.Namespace pod; Pod.Name pod; ctrName; Sprint i;
   String.substring 0 40 (DeviceUUID info i)].

(** Seconds since the last kernel, never below 0. *)
Definition elapsed (nowSec lastKernelTime : Z) : Z :=
  Z.max 0 (sub64 nowSec lastKernelTime).

Definition lastKernelSample (pod : Pod.t) (ctrName : string)
    (info : UsageInfo) (nowSec i : Z) : Metric :=
  mkMetric ctrDeviceLastKernelDesc GaugeValue
    (elapsed nowSec (LastKernelTime info)) (baseLabels pod ctrName info i).

Definition slotSamples (pod : Pod.t) (ctrName : string) (info : UsageInfo)
    (nowSec i : Z) : list Metric :=
  let base := baseLabels pod ctrName info i in
  [ mkMetric ctrvGPUdesc GaugeValue (DeviceMemoryTotal info i) base;
    mkMetric ctrvGPUlimitdesc GaugeValue (DeviceMemoryLimit info i) base;
    mkMetric ctrDeviceMemorydesc CounterValue (DeviceMemoryTotal info i)
      (base ++ [Sprint (DeviceMemoryContextSize info i);
                Sprint (DeviceMemoryModuleSize info i);
                Sprint (DeviceMemoryBufferSize info i);
                Sprint (DeviceMemoryOffset info i)]);
    mkMetric ctrDeviceUtilizationdesc GaugeValue (DeviceSmUtil info i) base ]
  ++ (if 0 <? LastKernelTime info
      then [lastKernelSample pod ctrName info nowSec i]
      else []).

(** The pair (pod UID, container name) of a record is the pair of this
    container of this pod, by string equality. *)
Definition matched (pod : Pod.t) (c : ContainerUsage) (ctr : Container.t)
    : bool :=
  (String.eqb (Pod.UID pod) (PodUID c)
   && String.eqb (Container.Name ctr) (ContainerName c))%bool.

Definition recordSamples (pod : Pod.t) (nowSec : Z) (c : ContainerUsage)
    : list Metric :=
  match Info c with
  | None => []
  | Some info =>
    flat_map
      (fun ctr =>
         if matched pod c ctr
         then flat_map (slotSamples pod (ContainerName c) info nowSec)
                (upto (DeviceNum info))
         else [])
      (Pod.Containers pod)
  end.

(** The inner join of pods and usage records, in emission order. *)
Definition joinSamples (pods : list Pod.t) (cs : list ContainerUsage)
    (nowSec : Z) : list Metric :=
  flat_map (fun pod => flat_map (recordSamples pod nowSec) cs) pods.

Definition hostDescs : list Desc := [hostGPUdesc; hostGPUUtilizationdesc].

Definition ctrDescs : list Desc :=
  [ctrvGPUdesc; ctrvGPUlimitdesc; ctrDeviceMemorydesc;
   ctrDeviceUtilizationdesc; ctrDeviceLastKernelDesc].

(** The UUID [s] yields a uuid label: it has at least 40 bytes, and its
    first 40 bytes are valid UTF-8 (the cut does not fall inside a
    character). *)
Definition cut_ok (s : string) : bool :=
  (Nat.leb 40 (String.length s)
   && ValidString (String.substring 0 40 s))%bool.

(** Every slot of the record carries a UUID that yields a label. *)
Definition uuids_ok (info : UsageInfo) : bool :=
  forallb (fun i => cut_ok (DeviceUUID info i)) (upto (DeviceNum info)).

Definition records_ok (cs : list ContainerUsage) : bool :=
  forallb (fun c => match Info c with
                    | None => true
                    | Some info => uuids_ok info
                    end) cs.

(** A run [m] delivers the samples [s]: all of them when it returns, an
    initial segment of them when it panics. *)
Definition delivers {A : Type} (m : M A) (s : list Metric) : Prop :=
  (exists rest, s = samples m ++ rest)
  /\ (panicked m = false -> samples m = s).

(** ** Concrete collaborators

    Small builders for the inputs the theorems are tried on. *)

Local Open Scope string_scope.

(** NVML status codes other than [SUCCESS], as the driver numbers them. *)
Definition ERROR_INVALID_ARGUMENT : nvml.Return := 2.
Definition ERROR_UNKNOWN : nvml.Return := 999.

Definition deviceOf (used : Z) (mret : nvml.Return) (uuid : string)
    (uret : nvml.Return) (gpu : Z) (gret : nvml.Return) : nvml.Device :=
  {| nvml.GetMemoryInfo :=
       ({| nvml.Total := 0; nvml.Free := 0; nvml.Used := used |}, mret);
     nvml.GetUUID := (uuid, uret);
     nvml.GetUtilizationRates := ({| nvml.Gpu := gpu; nvml.Mem := 0 |}, gret)
  |}.

(** An NVML that initialises, counts [devs] and hands them out by index. *)
Definition nvmlOf (devs : list nvml.Device) : nvml.Interface :=
  {| nvml.Init := nvml.SUCCESS;
     nvml.DeviceGetCount := (Z.of_nat (List.length devs), nvml.SUCCESS);
     nvml.DeviceGetHandleByIndex := fun i =>
       match nth_error devs (Z.to_nat i) with
       | Some d => (d, nvml.SUCCESS)
       | None =>
         (deviceOf 0 ERROR_INVALID_ARGUMENT "" ERROR_INVALID_ARGUMENT
            0 ERROR_INVALID_ARGUMENT, ERROR_INVALID_ARGUMENT)
       end |}.

Definition worldOf (devs : list nvml.Device) (now : Z) : World :=
  {| Nvml := nvmlOf devs; Now_Unix := now |}.

(** A registry holding [cs] whose refresh finds the same records. *)
Definition registryOf (cs : list ContainerUsage) : ContainerLister :=
  {| containers := cs; refresh := fun held => inl held |}.

Definition collectorOf (ps : list Pod.t) (lerr : error)
    (reg : ContainerLister) : ClusterManagerCollector :=
  {| ClusterManager_ :=
       {| Zone := "vGPU";
          PodLister_ := {| List := fun _ => (ps, lerr) |};
          containerLister := reg |} |}.

(** The pod and the usage record of the concrete scenario. *)
Definition pod_a : Pod.t :=
  {| Pod.UID := "p1"; Pod.Name := "pod-a"; Pod.Namespace := "ns";
     Pod.Labels := [("app", "train-job")];
     Pod.Containers := [ {| Container.Name := "c1" |} ] |}.

Definition uuid40 : string := "GPU-0a1b2c3d-4e5f-6789-abcd-ef0123456789".

(** A usage record's info with one device slot: total 1024, limit 2048,
    SM utilization 55. *)
Definition oneSlot (uuid : string) (context module data offset last : Z)
    : UsageInfo :=
  {| DeviceNum := 1;
     DeviceUUID := fun _ => uuid;
     DeviceMemoryTotal := fun _ => 1024;
     DeviceMemoryLimit := fun _ => 2048;
     DeviceMemoryContextSize := fun _ => context;
     DeviceMemoryModuleSize := fun _ => module;
     DeviceMemoryBufferSize := fun _ => data;
     DeviceMemoryOffset := fun _ => offset;
     DeviceSmUtil := fun _ => 55;
     LastKernelTime := last |}.

Definition record_c1 (info : option UsageInfo) : ContainerUsage :=
  {| PodUID := "p1"; ContainerName := "c1"; Info := info |}.

(** The labels of the scenario's samples. *)
Definition scenarioBase : list string := ["ns"; "pod-a"; "c1"; "0"; uuid40].

Definition scenarioSamples (context module data offset : Z) : list Metric :=
  [ mkMetric ctrvGPUdesc GaugeValue 1024 scenarioBase;
    mkMetric ctrvGPUlimitdesc GaugeValue 2048 scenarioBase;
    mkMetric ctrDeviceMemorydesc CounterValue 1024
      (scenarioBase ++ [Sprint context; Sprint module; Sprint data;
                        Sprint offset]);
    mkMetric ctrDeviceUtilizationdesc GaugeValue 55 scenarioBase ].

(** Inputs of the examples. *)

(** No pod and no usage record. *)
Definition idle : ClusterManagerCollector :=
  collectorOf [] None (registryOf []).

(** Two devices; the UUID read of device 0 fails, its other reads succeed. *)
Definition uuidReadFails : World :=
  worldOf
    [ deviceOf 4096 nvml.SUCCESS "" ERROR_UNKNOWN 37 nvml.SUCCESS;
      deviceOf 2048 nvml.SUCCESS "GPU-1" nvml.SUCCESS 12 nvml.SUCCESS ]
    1700000000.

(** One device whose memory read fails. *)
Definition memoryReadFails : World :=
  worldOf [ deviceOf 0 ERROR_UNKNOWN "GPU-0" nvml.SUCCESS 37 nvml.SUCCESS ]
    1700000000.

(** One device whose memory and utilization reads fail. *)
Definition onlyUUIDReads : World :=
  worldOf [ deviceOf 0 ERROR_UNKNOWN "GPU-0" nvml.SUCCESS 0 ERROR_UNKNOWN ]
    1700000000.

(** One device reporting 2^63 bytes in use. *)
Definition hugeMemory : World :=
  worldOf [ deviceOf (2 ^ 63) nvml.SUCCESS "GPU-0" nvml.SUCCESS 37
              nvml.SUCCESS ]
    1700000000.

(** One healthy device. *)
Definition oneDevice : World :=
  worldOf [ deviceOf 4096 nvml.SUCCESS "GPU-0" nvml.SUCCESS 37 nvml.SUCCESS ]
    1700000000.

(** No device at all. *)
Definition noDevice : World := worldOf [] 1700000000.

(** The concrete scenario: [pod_a] and its one usage record. *)
Definition scenario (context module data offset last : Z)
    : ClusterManagerCollector :=
  collectorOf [pod_a] None
    (registryOf
       [record_c1 (Some (oneSlot uuid40 context module data offset last))]).


(** The scenario with a pod lister that returns the pod and an error. *)
Definition failedListing : ClusterManagerCollector :=
  collectorOf [pod_a] (Some "pod cache not synced")
    (registryOf [record_c1 (Some (oneSlot uuid40 0 0 0 0 0))]).

(** The scenario with a second record for the same container whose info is
    nil, and the same without that record. *)
Definition withNilRecord : ClusterManagerCollector :=
  collectorOf [pod_a] None
    (registryOf [record_c1 None; record_c1 (Some (oneSlot uuid40 0 0 0 0 0))]).

(** A pod and a record that do not meet: the record is of pod "p2". *)
Definition strangers : ClusterManagerCollector :=
  collectorOf [pod_a] None
    (registryOf
       [ {| PodUID := "p2"; ContainerName := "c1";
            Info := Some (oneSlot "GPU-short" 0 0 0 0 0) |} ]).

(** A UUID of 41 bytes, valid UTF-8, whose bytes 39 and 40 are the two
    bytes of one character (U+00E9): cutting it at 40 splits that
    character. *)
Definition uuid41 : string :=
  "GPU-0a1b2c3d-4e5f-6789-abcd-ef012345678"
  ++ String (ascii_of_nat 195) (String (ascii_of_nat 169) EmptyString).

(** The scenario with that UUID. *)
Definition cutUUID (last : Z) : ClusterManagerCollector :=
  collectorOf [pod_a] None
    (registryOf [record_c1 (Some (oneSlot uuid41 0 0 0 0 last))]).


Local Close Scope string_scope.

(** Some pod, record and container of the join form a matching pair. *)
Definition joined (ps : list Pod.t) (cs : list ContainerUsage) : bool :=
  existsb (fun pod =>
    existsb (fun c => existsb (matched pod c) (Pod.Containers pod)) cs) ps.

Definition has_info (c : ContainerUsage) : bool :=
  match Info c with Some _ => true | None => false end.

(** ** Describe, and the label map of a matched container *)

(** [ClusterManagerCollector.Describe] (lines 126-132): the descriptors it
    sends on its channel, in order. *)
Definition Describe (cc : ClusterManagerCollector) : list Desc :=
  [hostGPUdesc; ctrvGPUdesc; ctrvGPUlimitdesc; hostGPUUtilizationdesc].

(** [strings.ReplaceAll(s, old, new)] for one-byte [old] and [new], the way
    the source calls it. *)
Fixpoint ReplaceAll (s : string) (old new : ascii) : string :=
  match s with
  | EmptyString => EmptyString
  | String c s' =>
    String (if Ascii.eqb c old then new else c) (ReplaceAll s' old new)
  end.

(** [m[k] = v] on a map kept as an association list with unique keys. *)
Fixpoint assign (k v : string) (m : list (string * string))
    : list (string * string) :=
  match m with
  | [] => [(k, v)]
  | (k', v') :: m' =>
    if String.eqb k k' then (k, v) :: m' else (k', v') :: assign k v m'
  end.

Fixpoint lookup (k : string) (m : list (string * string)) : option string :=
  match m with
  | [] => None
  | (k', v') :: m' => if String.eqb k k' then Some v' else lookup k m'
  end.

(** Lines 227-232: the map [podlabels] built for a matched container, the
    pod's labels being ranged over in the order of [labels]. *)
Definition podlabels (labels : list (string * string))
    : list (string * string) :=
  fold_left
    (fun m kv =>
       let idxfix := ReplaceAll (fst kv) "-" "_" in
       let valfix := ReplaceAll (snd kv) "-" "_" in
       assign idxfix valfix m)
    labels [].

(** The byte [c] occurs in [s]. *)
Fixpoint occurs (c : ascii) (s : string) : bool :=
  match s with
  | EmptyString => false
  | String c' s' => (Ascii.eqb c' c || occurs c s')%bool
  end.

(** ** Observations on a run *)

Definition logged (e : Event) : list LogEntry :=
  match e with Klog l => [l] | _ => [] end.

(** The klog lines of a trace, in order. *)
Definition logs_of (t : list Event) : list LogEntry := flat_map logged t.

(** What identifies a time series: the metric name and the label values. *)
Definition series (m : Metric) : string * list string :=
  (fqName (desc m), labelValues m).

Definition is_last_kernel (m : Metric) : bool :=
  String.eqb (fqName (desc m)) (fqName ctrDeviceLastKernelDesc).

Definition handle_ok (n : nvml.Interface) (ii : Z) : bool :=
  snd (nvml.DeviceGetHandleByIndex n ii) =? nvml.SUCCESS.

(** NVML answers every call of the host phase with [SUCCESS]. *)
Definition nvml_healthy (n : nvml.Interface) : bool :=
  ((nvml.Init n =? nvml.SUCCESS) && count_ok n
   && forallb (fun ii => handle_ok n ii && memory_ok n ii
                         && uuid_ok n ii && utilization_ok n ii)
        (upto (fst (nvml.DeviceGetCount n))))%bool.

(** Some matched container of the join has a slot whose UUID yields no
    label. *)
Definition bad_slot (ps : list Pod.t) (cs : list ContainerUsage) : bool :=
  existsb (fun pod =>
    existsb (fun c =>
      match Info c with
      | None => false
      | Some info =>
        (existsb (matched pod c) (Pod.Containers pod)
         && negb (uuids_ok info))%bool
      end) cs) ps.

(** A pod seen with other labels. *)
Definition relabel (labels : list (string * string)) (pod : Pod.t) : Pod.t :=
  {| Pod.UID := Pod.UID pod; Pod.Name := Pod.Name pod;
     Pod.Namespace := Pod.Namespace pod; Pod.Labels := labels;
     Pod.Containers := Pod.Containers pod |}.

(** A world with another clock. *)
Definition at_time (now : Z) (w : World) : World :=
  {| Nvml := Nvml w; Now_Unix := now |}.

(** A world whose NVML reports other statuses for [Init] and for the handle
    lookups, and is otherwise the same. *)
Definition with_statuses (init : nvml.Return) (lookup_ret : Z -> nvml.Return)
    (w : World) : World :=
  {| Nvml :=
       {| nvml.Init := init;
          nvml.DeviceGetCount := nvml.DeviceGetCount (Nvml w);
          nvml.DeviceGetHandleByIndex := fun ii =>
            (handle (Nvml w) ii, lookup_ret ii) |};
     Now_Unix := Now_Unix w |}.

(** Two runs agree on the samples that pass [keep] and on whether they
    panic. *)
Definition same_on (keep : Metric -> bool) (m m' : M unit) : Prop :=
  filter keep (samples m) = filter keep (samples m')
  /\ panicked m = panicked m'.

(** ** Generic facts about runs *)

Lemma samples_of_app (t1 t2 : list Event) :
  samples_of (t1 ++ t2) = samples_of t1 ++ samples_of t2.
Proof. unfold samples_of. apply flat_map_app. Qed.

Lemma samples_bind {A B : Type} (m : M A) (k : A -> M B) (a : A) :
  snd m = Some a ->
  samples (bind m k) = samples m ++ samples (k a).
Proof.
  destruct m as [t r]. simpl. intros ->. unfold samples, trace, bind.
  destruct (k a) as [t' r']. simpl. apply samples_of_app.
Qed.

Lemma samples_bind_panic {A B : Type} (m : M A) (k : A -> M B) :
  snd m = None -> samples (bind m k) = samples m.
Proof. destruct m as [t r]. simpl. intros ->. reflexivity. Qed.

Lemma panicked_bind {A B : Type} (m : M A) (k : A -> M B) :
  panicked (bind m k) =
  match snd m with
  | None => true
  | Some a => panicked (k a)
  end.
Proof.
  destruct m as [t [a|]]; simpl; [|reflexivity].
  unfold panicked. destruct (k a) as [t' r']. reflexivity.
Qed.

Lemma delivers_ret {A : Type} (a : A) : delivers (ret a) [].
Proof. split; [exists []; reflexivity | reflexivity]. Qed.

Lemma delivers_bind {A B : Type} (m : M A) (k : A -> M B)
    (s1 s2 : list Metric) :
  delivers m s1 -> (forall a, delivers (k a) s2) ->
  delivers (bind m k) (s1 ++ s2).
Proof.
  intros [[r1 E1] P1] Hk. destruct (snd m) as [a|] eqn:Hm.
  - destruct (Hk a) as [[r2 E2] P2].
    assert (Hs : samples m = s1).
    { apply P1. unfold panicked. now rewrite Hm. }
    split.
    + exists r2. rewrite (samples_bind m k a Hm), Hs, E2.
      now rewrite app_assoc.
    + rewrite panicked_bind, Hm. intros Hp.
      rewrite (samples_bind m k a Hm), Hs. f_equal. now apply P2.
  - split.
    + exists (r1 ++ s2). rewrite (samples_bind_panic m k Hm), E1.
      now rewrite app_assoc.
    + rewrite panicked_bind, Hm. discriminate.
Qed.

Lemma delivers_forM {A : Type} (l : list A) (body : A -> M unit)
    (spec : A -> list Metric) :
  (forall x, In x l -> delivers (body x) (spec x)) ->
  delivers (forM_ l body) (flat_map spec l).
Proof.
  induction l as [|x l IH]; intros H; simpl.
  - apply delivers_ret.
  - apply delivers_bind.
    + apply H. now left.
    + intros _. apply IH. intros y Hy. apply H. now right.
Qed.

Lemma returns_forM {A : Type} (l : list A) (body : A -> M unit) :
  (forall x, In x l -> panicked (body x) = false) ->
  panicked (forM_ l body) = false.
Proof.
  induction l as [|x l IH]; intros H; simpl.
  - reflexivity.
  - rewrite panicked_bind.
    assert (Hx : panicked (body x) = false) by (apply H; now left).
    unfold panicked in Hx. destruct (snd (body x)); [|discriminate].
    apply IH. intros y Hy. apply H. now right.
Qed.

Lemma delivers_In {A : Type} (m : M A) (s : list Metric) (x : Metric) :
  delivers m s -> In x (samples m) -> In x s.
Proof. intros [[r E] _] Hx. rewrite E. apply in_or_app. now left. Qed.

Lemma delivers_quiet {A B : Type} (m : M A) (k : A -> M B) (a : A)
    (s : list Metric) :
  snd m = Some a -> samples m = [] -> delivers (k a) s ->
  delivers (bind m k) s.
Proof.
  intros Hm Hs [[r E] P]. split.
  - exists r. now rewrite (samples_bind m k a Hm), Hs.
  - rewrite panicked_bind, Hm, (samples_bind m k a Hm), Hs. exact P.
Qed.

Lemma delivers_all {A : Type} (m : M A) :
  panicked m = false -> delivers m (samples m).
Proof.
  intros _. split; [exists []; now rewrite app_nil_r | reflexivity].
Qed.

Lemma bind_quiet (m : M unit) (k : unit -> M unit) :
  snd m = Some tt -> samples m = [] ->
  samples (bind m k) = samples (k tt)
  /\ panicked (bind m k) = panicked (k tt).
Proof.
  intros Hm Hs. rewrite panicked_bind, Hm, (samples_bind m k tt Hm), Hs.
  split; reflexivity.
Qed.

Lemma bind_returns (m : M unit) (k : unit -> M unit) :
  panicked m = false ->
  samples (bind m k) = samples m ++ samples (k tt)
  /\ panicked (bind m k) = panicked (k tt).
Proof.
  intros Hp. unfold panicked in Hp.
  destruct (snd m) as [[]|] eqn:Hm; [|discriminate].
  rewrite panicked_bind, Hm, (samples_bind m k tt Hm). split; reflexivity.
Qed.

Lemma panicked_forM {A : Type} (l : list A) (body : A -> M unit) :
  panicked (forM_ l body) = true ->
  exists x, In x l /\ panicked (body x) = true.
Proof.
  induction l as [|x l IH]; simpl.
  - discriminate.
  - rewrite panicked_bind. destruct (snd (body x)) as [u|] eqn:Hx.
    + intros H. destruct (IH H) as [y [Hy Py]]. exists y. auto.
    + intros _. exists x. split; [now left|].
      unfold panicked. now rewrite Hx.
Qed.

(** The step of a proof that walks down a chain of binds: a step that
    sends nothing and returns is skipped. *)
Ltac skip_quiet :=
  lazymatch goal with
  | |- context [samples (bind ?m ?k)] =>
    destruct (bind_quiet m k) as [-> ->]
  end.

(** ** Strings and numerals *)

Lemma strings_Compare_eqb (a b : string) :
  (strings_Compare a b =? 0) = String.eqb a b.
Proof.
  unfold strings_Compare. destruct (String.eqb_spec a b) as [->|N].
  - pose proof (String.compare_antisym b b) as H.
    destruct (String.compare b b); simpl in H; try discriminate; reflexivity.
  - destruct (String.compare a b) eqn:E; try reflexivity.
    apply String.compare_eq_iff in E. contradiction.
Qed.

Lemma slice_40 (s : string) :
  slice s 0 40 =
  if Nat.leb 40 (String.length s)
  then Some (String.substring 0 40 s)
  else None.
Proof. reflexivity. Qed.


Lemma Sprint_inj (a b : Z) : Sprint a = Sprint b -> a = b.
Proof.
  unfold Sprint. intros H.
  assert (N : forall z, Z.to_int z <> Decimal.Pos Decimal.Nil
                        /\ Z.to_int z <> Decimal.Neg Decimal.Nil).
  { intros [|p|p]; simpl; split; try discriminate;
      intros [= E]; now apply (Unsigned.to_uint_nonnil p). }
  apply DecimalZ.to_int_inj.
  assert (E : Some (Z.to_int a) = Some (Z.to_int b)).
  { rewrite <- (NilZero.isi (Z.to_int a)) by apply N.
    rewrite <- (NilZero.isi (Z.to_int b)) by apply N.
    now rewrite H. }
  now injection E.
Qed.

Lemma In_upto (n i : Z) : In i (upto n) <-> 0 <= i < n.
Proof.
  unfold upto. rewrite in_map_iff. split.
  - intros [k [<- Hk]]. apply in_seq in Hk. lia.
  - intros H. exists (Z.to_nat i). split; [lia|]. apply in_seq. lia.
Qed.

Lemma int_small (x : Z) : 0 <= x < 2 ^ 63 -> int x = x.
Proof.
  intros H. unfold int, wrap. change (64 - 1) with 63.
  rewrite Z.mod_small; lia.
Qed.

Lemma sub64_exact (a b : Z) : in_int64 (a - b) -> sub64 a b = a - b.
Proof.
  unfold in_int64, sub64, wrap. intros H. change (64 - 1) with 63.
  rewrite Z.mod_small; lia.
Qed.

(** ** The host phase *)

Lemma collectDevice_run (n : nvml.Interface) (ii : Z) :
  samples (collectDevice n ii) = deviceSamples n ii
  /\ panicked (collectDevice n ii) = false.
Proof.
  unfold collectDevice, deviceSamples, memorySample, utilizationSample,
    hostLabels, memory_ok, uuid_ok, utilization_ok, handle.
  destruct (nvml.DeviceGetHandleByIndex n ii) as [hdev r0].
  destruct hdev as [[mem r1] [uuid r2] [util r3]].
  cbn [fst snd nvml.GetMemoryInfo nvml.GetUUID nvml.GetUtilizationRates].
  destruct (r0 =? nvml.SUCCESS), (r1 =? nvml.SUCCESS),
    (r2 =? nvml.SUCCESS), (r3 =? nvml.SUCCESS); split; reflexivity.
Qed.

Lemma collectHost_run (n : nvml.Interface) :
  samples (collectHost n) = hostSamples n
  /\ panicked (collectHost n) = false.
Proof.
  unfold collectHost, hostSamples, count_ok.
  destruct (nvml.DeviceGetCount n) as [devnum r]. cbn [fst snd].
  skip_quiet; try (destruct (nvml.Init n =? nvml.SUCCESS); reflexivity).
  destruct (r =? nvml.SUCCESS); [|split; reflexivity].
  assert (P : panicked (forM_ (upto devnum) (collectDevice n)) = false).
  { apply returns_forM. intros x _. apply collectDevice_run. }
  split; [|exact P].
  apply (delivers_forM (upto devnum) (collectDevice n) (deviceSamples n));
    [|exact P].
  intros x _. destruct (collectDevice_run n x) as [<- Q].
  now apply delivers_all.
Qed.

(** ** The join phase *)

Lemma collectSlot_run pod ctrName info nowSec i :
  cut_ok (DeviceUUID info i) = true ->
  samples (collectSlot pod ctrName info nowSec i)
  = slotSamples pod ctrName info nowSec i
  /\ panicked (collectSlot pod ctrName info nowSec i) = false.
Proof.
  intros H. apply andb_true_iff in H. destruct H as [H V].
  unfold collectSlot, slotSamples, lastKernelSample, baseLabels, elapsed.
  rewrite slice_40, H. unfold MustNewConstMetric.
  cbn [forallb label_valid app]. rewrite V.
  destruct (0 <? LastKernelTime info); [|split; reflexivity].
  destruct (Z.ltb_spec (sub64 nowSec (LastKernelTime info)) 0) as [L|L].
  - rewrite Z.max_l by lia. split; reflexivity.
  - rewrite Z.max_r by lia. split; reflexivity.
Qed.

Lemma collectSlot_short pod ctrName info nowSec i :
  cut_ok (DeviceUUID info i) = false ->
  trace (collectSlot pod ctrName info nowSec i) = []
  /\ panicked (collectSlot pod ctrName info nowSec i) = true.
Proof.
  intros H. unfold collectSlot. rewrite slice_40.
  unfold cut_ok in H.
  destruct (Nat.leb 40 (String.length (DeviceUUID info i)));
    [|split; reflexivity].
  simpl andb in H. cbv zeta.
  assert (E : MustNewConstMetric ctrvGPUdesc GaugeValue
                (DeviceMemoryTotal info i)
                [Text (Pod.Namespace pod); Text (Pod.Name pod);
                 Text ctrName; Text (Sprint i);
                 Cut (String.substring 0 40 (DeviceUUID info i))]
              = panic).
  { unfold MustNewConstMetric. cbn [forallb label_valid]. now rewrite H. }
  rewrite E. split; reflexivity.
Qed.

Lemma collectSlot_delivers pod ctrName info nowSec i :
  delivers (collectSlot pod ctrName info nowSec i)
    (slotSamples pod ctrName info nowSec i).
Proof.
  destruct (cut_ok (DeviceUUID info i)) eqn:H.
  - destruct (collectSlot_run pod ctrName info nowSec i H) as [<- P].
    now apply delivers_all.
  - destruct (collectSlot_short pod ctrName info nowSec i H) as [E P].
    split.
    + eexists. unfold samples. rewrite E. reflexivity.
    + rewrite P. discriminate.
Qed.

Lemma collectCtr_delivers pod c info nowSec ctr :
  delivers (collectCtr pod c info nowSec ctr)
    (if String.eqb (Container.Name ctr) (ContainerName c)
     then flat_map (slotSamples pod (ContainerName c) info nowSec)
            (upto (DeviceNum info))
     else []).
Proof.
  unfold collectCtr. rewrite strings_Compare_eqb.
  destruct (String.eqb (Container.Name ctr) (ContainerName c));
    simpl negb; cbv iota.
  - apply (delivers_quiet _ _ tt); [reflexivity | reflexivity |].
    apply delivers_forM. intros i _. apply collectSlot_delivers.
  - apply delivers_ret.
Qed.

Lemma collectRecord_delivers pod nowSec c :
  delivers (collectRecord pod nowSec c) (recordSamples pod nowSec c).
Proof.
  unfold collectRecord, recordSamples, matched.
  destruct (Info c) as [info|]; [|apply delivers_ret].
  rewrite strings_Compare_eqb.
  destruct (String.eqb (Pod.UID pod) (PodUID c)); simpl negb; cbv iota.
  - apply (delivers_quiet _ _ tt); [reflexivity | reflexivity |].
    apply delivers_forM. intros ctr _. simpl andb.
    apply collectCtr_delivers.
  - replace (flat_map _ (Pod.Containers pod)) with (@nil Metric).
    + apply delivers_ret.
    + induction (Pod.Containers pod); simpl; auto.
Qed.

Lemma collectContainers_delivers ps cs nowSec :
  delivers (collectContainers ps cs nowSec) (joinSamples ps cs nowSec).
Proof.
  unfold collectContainers, joinSamples.
  apply delivers_forM. intros pod _.
  apply delivers_forM. intros c _. apply collectRecord_delivers.
Qed.

Lemma uuids_ok_slot info i :
  uuids_ok info = true -> In i (upto (DeviceNum info)) ->
  cut_ok (DeviceUUID info i) = true.
Proof.
  unfold uuids_ok. rewrite forallb_forall. intros H Hi. now apply H.
Qed.

Lemma collectRecord_returns pod nowSec c :
  match Info c with Some info => uuids_ok info = true | None => True end ->
  panicked (collectRecord pod nowSec c) = false.
Proof.
  unfold collectRecord. destruct (Info c) as [info|]; [|reflexivity].
  intros H.
  destruct (negb (strings_Compare (Pod.UID pod) (PodUID c) =? 0));
    [reflexivity|].
  rewrite panicked_bind. cbn [snd emit].
  apply returns_forM. intros ctr _. unfold collectCtr.
  destruct
    (negb (strings_Compare (Container.Name ctr) (ContainerName c) =? 0));
    [reflexivity|].
  rewrite panicked_bind. cbn [snd emit].
  apply returns_forM. intros i Hi.
  apply collectSlot_run. now apply uuids_ok_slot.
Qed.

Lemma collectContainers_returns ps cs nowSec :
  records_ok cs = true -> panicked (collectContainers ps cs nowSec) = false.
Proof.
  unfold records_ok. rewrite forallb_forall. intros H.
  apply returns_forM. intros pod _. apply returns_forM. intros c Hc.
  apply collectRecord_returns. specialize (H c Hc).
  destruct (Info c); auto.
Qed.

(** ** The whole scrape *)

(** The host samples are always delivered in full; the join follows. *)
Lemma Collect_run cc w :
  scrape cc w
  = hostSamples (Nvml w)
    ++ samples (collectContainers (pods cc) (records cc) (Now_Unix w))
  /\ crashed cc w
     = panicked (collectContainers (pods cc) (records cc) (Now_Unix w)).
Proof.
  unfold scrape, crashed, Collect, pods, records.
  destruct (Update (containerLister (ClusterManager_ cc))) as [lister uerr].
  destruct (List (PodLister_ (ClusterManager_ cc)) Everything) as [ps lerr].
  cbn [fst snd].
  destruct (collectHost_run (Nvml w)) as [HS HP].
  skip_quiet; try reflexivity.
  skip_quiet; try (destruct uerr; reflexivity).
  lazymatch goal with
  | |- context [samples (bind ?m ?k)] =>
    destruct (bind_returns m k HP) as [-> ->]
  end.
  skip_quiet; try (destruct lerr; reflexivity).
  rewrite HS. split; reflexivity.
Qed.

Lemma scrape_returned cc w :
  records_ok (records cc) = true ->
  scrape cc w
  = hostSamples (Nvml w) ++ joinSamples (pods cc) (records cc) (Now_Unix w)
  /\ crashed cc w = false.
Proof.
  intros H. destruct (Collect_run cc w) as [E C].
  pose proof (collectContainers_returns (pods cc) _ (Now_Unix w) H) as P.
  rewrite E, C. split; [|exact P]. f_equal.
  now apply (collectContainers_delivers (pods cc) (records cc) (Now_Unix w)).
Qed.

(** ** Where a sample comes from *)

Lemma In_hostSamples n m :
  In m (hostSamples n) <->
  count_ok n = true
  /\ exists ii, 0 <= ii < fst (nvml.DeviceGetCount n)
                /\ In m (deviceSamples n ii).
Proof.
  unfold hostSamples. destruct (count_ok n).
  - rewrite in_flat_map. split.
    + intros [ii [Hi Hm]]. apply In_upto in Hi. eauto.
    + intros [_ [ii [Hi Hm]]]. exists ii. split; [now apply In_upto|auto].
  - split; [intros []|intros [H _]; discriminate].
Qed.

Lemma deviceSamples_inv n ii m :
  In m (deviceSamples n ii) ->
  (uuid_ok n ii = true /\ m = memorySample n ii)
  \/ (utilization_ok n ii = true /\ m = utilizationSample n ii).
Proof.
  unfold deviceSamples. intros H. apply in_app_or in H.
  destruct H as [H|H]; [left; destruct (uuid_ok n ii)
                       |right; destruct (utilization_ok n ii)];
    simpl in H; intuition congruence.
Qed.

Lemma In_recordSamples pod nowSec c m :
  In m (recordSamples pod nowSec c) <->
  exists info ctr i,
    Info c = Some info /\ In ctr (Pod.Containers pod)
    /\ matched pod c ctr = true /\ 0 <= i < DeviceNum info
    /\ In m (slotSamples pod (ContainerName c) info nowSec i).
Proof.
  unfold recordSamples. destruct (Info c) as [info|].
  - rewrite in_flat_map. split.
    + intros [ctr [Hc H]]. destruct (matched pod c ctr) eqn:Hm; [|easy].
      apply in_flat_map in H. destruct H as [i [Hi H]].
      apply In_upto in Hi. exists info, ctr, i. auto.
    + intros [info' [ctr [i [[= <-] [Hc [Hm [Hi H]]]]]]].
      exists ctr. split; [exact Hc|]. rewrite Hm. apply in_flat_map.
      exists i. split; [now apply In_upto|exact H].
  - split; [intros []|]. intros [info [ctr [i [H _]]]]. discriminate.
Qed.

Lemma In_joinSamples ps cs nowSec m :
  In m (joinSamples ps cs nowSec) <->
  exists pod c info ctr i,
    In pod ps /\ In c cs /\ Info c = Some info
    /\ In ctr (Pod.Containers pod) /\ matched pod c ctr = true
    /\ 0 <= i < DeviceNum info
    /\ In m (slotSamples pod (ContainerName c) info nowSec i).
Proof.
  unfold joinSamples. rewrite in_flat_map. split.
  - intros [pod [Hp H]]. apply in_flat_map in H. destruct H as [c [Hc H]].
    apply In_recordSamples in H.
    destruct H as [info [ctr [i [Hi [Hctr [Hm [Hr H]]]]]]].
    exists pod, c, info, ctr, i. auto 10.
  - intros [pod [c [info [ctr [i [Hp [Hc [Hi [Hctr [Hm [Hr H]]]]]]]]]]].
    exists pod. split; [exact Hp|]. apply in_flat_map. exists c.
    split; [exact Hc|]. apply In_recordSamples. exists info, ctr, i. auto.
Qed.

Lemma matched_eq pod c ctr :
  matched pod c ctr = true <->
  Pod.UID pod = PodUID c /\ Container.Name ctr = ContainerName c.
Proof.
  unfold matched. rewrite andb_true_iff, !String.eqb_eq. reflexivity.
Qed.

Lemma slotSamples_shape pod ctrName info nowSec i m :
  In m (slotSamples pod ctrName info nowSec i) ->
  In (desc m) ctrDescs
  /\ firstn 5 (labelValues m) = baseLabels pod ctrName info i.
Proof.
  unfold slotSamples, lastKernelSample. intros H. apply in_app_or in H.
  destruct H as [H|H].
  - simpl in H. destruct H as [<-|[<-|[<-|[<-|[]]]]]; simpl; auto 10.
  - destruct (0 <? LastKernelTime info); simpl in H; [|easy].
    destruct H as [<-|[]]. simpl. auto 10.
Qed.

Lemma deviceSamples_shape n ii m :
  In m (deviceSamples n ii) ->
  In (desc m) hostDescs /\ labelValues m = hostLabels n ii.
Proof.
  intros H. destruct (deviceSamples_inv n ii m H) as [[_ ->]|[_ ->]];
    simpl; auto.
Qed.

Lemma host_or_ctr (d : Desc) : In d hostDescs -> In d ctrDescs -> False.
Proof.
  unfold hostDescs, ctrDescs. simpl.
  intros [<-|[<-|[]]] [H|[H|[H|[H|[H|[]]]]]]; discriminate H.
Qed.

Lemma scrape_inv cc w m :
  In m (scrape cc w) ->
  In m (hostSamples (Nvml w))
  \/ In m (joinSamples (pods cc) (records cc) (Now_Unix w)).
Proof.
  destruct (Collect_run cc w) as [-> _]. intros H. apply in_app_or in H.
  destruct H as [H|H]; [now left|right].
  eapply delivers_In; [apply collectContainers_delivers|exact H].
Qed.

Lemma scrape_host cc w m : In m (hostSamples (Nvml w)) -> In m (scrape cc w).
Proof.
  destruct (Collect_run cc w) as [-> _]. intros H. apply in_or_app. now left.
Qed.

Lemma scrape_join cc w m :
  records_ok (records cc) = true ->
  In m (joinSamples (pods cc) (records cc) (Now_Unix w)) ->
  In m (scrape cc w).
Proof.
  intros Hok H. destruct (scrape_returned cc w Hok) as [-> _].
  apply in_or_app. now right.
Qed.

Lemma scrape_host_inv cc w m :
  In m (scrape cc w) -> In (desc m) hostDescs -> In m (hostSamples (Nvml w)).
Proof.
  intros H D. destruct (scrape_inv cc w m H) as [Hh|Hj]; [exact Hh|].
  apply In_joinSamples in Hj.
  destruct Hj as [pod [c [info [ctr [i [_ [_ [_ [_ [_ [_ Hs]]]]]]]]]]].
  apply slotSamples_shape in Hs. destruct Hs as [Hs _].
  destruct (host_or_ctr _ D Hs).
Qed.

(** A panic of the join comes from a matched slot whose UUID yields no
    label. *)
Lemma collectContainers_panic ps cs nowSec :
  panicked (collectContainers ps cs nowSec) = true ->
  exists pod c info ctr i,
    In pod ps /\ In c cs /\ Info c = Some info
    /\ In ctr (Pod.Containers pod) /\ matched pod c ctr = true
    /\ 0 <= i < DeviceNum info
    /\ cut_ok (DeviceUUID info i) = false.
Proof.
  intros H. apply panicked_forM in H. destruct H as [pod [Hp H]].
  apply panicked_forM in H. destruct H as [c [Hc H]].
  unfold collectRecord in H. destruct (Info c) as [info|] eqn:Hi;
    [|discriminate].
  rewrite strings_Compare_eqb in H.
  destruct (String.eqb (Pod.UID pod) (PodUID c)) eqn:Hu; [|discriminate].
  simpl negb in H. cbv iota in H. rewrite panicked_bind in H.
  cbn [snd emit] in H. apply panicked_forM in H.
  destruct H as [ctr [Hctr H]]. unfold collectCtr in H.
  rewrite strings_Compare_eqb in H.
  destruct (String.eqb (Container.Name ctr) (ContainerName c)) eqn:Hn;
    [|discriminate].
  simpl negb in H. cbv iota in H. rewrite panicked_bind in H.
  cbn [snd emit] in H. apply panicked_forM in H. destruct H as [i [Hr H]].
  exists pod, c, info, ctr, i. apply In_upto in Hr.
  repeat split; auto; try lia.
  - unfold matched. now rewrite Hu, Hn.
  - destruct (cut_ok (DeviceUUID info i)) eqn:L; [|reflexivity].
    destruct (collectSlot_run pod (ContainerName c) info nowSec i L)
      as [_ P]. congruence.
Qed.

(** ** What a run sent, and why *)

Lemma bind_ret_l {B : Type} (k : unit -> M B) : bind (ret tt) k = k tt.
Proof. unfold bind, ret. destruct (k tt) as [t r]. reflexivity. Qed.

Lemma samples_bind_inv {A B : Type} (m : M A) (k : A -> M B) (x : Metric) :
  In x (samples (bind m k)) ->
  In x (samples m) \/ exists a, In x (samples (k a)).
Proof.
  destruct (snd m) as [a|] eqn:Hm.
  - rewrite (samples_bind m k a Hm). intros H. apply in_app_or in H.
    destruct H; [now left|right; now exists a].
  - rewrite (samples_bind_panic m k Hm). now left.
Qed.

Lemma samples_forM_inv {A : Type} (l : list A) (body : A -> M unit)
    (x : Metric) :
  In x (samples (forM_ l body)) ->
  exists a, In a l /\ In x (samples (body a)).
Proof.
  induction l as [|a l IH]; simpl.
  - intros [].
  - intros H. apply samples_bind_inv in H. destruct H as [H|[_ H]].
    + exists a. auto.
    + destruct (IH H) as [b [Hb Hx]]. exists b. auto.
Qed.

(** A sample of the join was sent by the slot loop of a matched pair, and
    that slot's UUID yields a label. *)
Lemma collectContainers_sample ps cs nowSec m :
  In m (samples (collectContainers ps cs nowSec)) ->
  exists pod c info ctr i,
    In pod ps /\ In c cs /\ Info c = Some info
    /\ In ctr (Pod.Containers pod) /\ matched pod c ctr = true
    /\ 0 <= i < DeviceNum info
    /\ cut_ok (DeviceUUID info i) = true
    /\ In m (slotSamples pod (ContainerName c) info nowSec i).
Proof.
  intros H. apply samples_forM_inv in H. destruct H as [pod [Hp H]].
  apply samples_forM_inv in H. destruct H as [c [Hc H]].
  unfold collectRecord in H. destruct (Info c) as [info|] eqn:Hi;
    [|destruct H].
  rewrite strings_Compare_eqb in H.
  destruct (String.eqb (Pod.UID pod) (PodUID c)) eqn:Hu; [|destruct H].
  simpl negb in H. cbv iota in H.
  apply samples_bind_inv in H. destruct H as [[]|[_ H]].
  apply samples_forM_inv in H. destruct H as [ctr [Hctr H]].
  unfold collectCtr in H. rewrite strings_Compare_eqb in H.
  destruct (String.eqb (Container.Name ctr) (ContainerName c)) eqn:Hn;
    [|destruct H].
  simpl negb in H. cbv iota in H.
  apply samples_bind_inv in H. destruct H as [[]|[_ H]].
  apply samples_forM_inv in H. destruct H as [i [Hr H]].
  apply In_upto in Hr.
  destruct (cut_ok (DeviceUUID info i)) eqn:L.
  - destruct (collectSlot_run pod (ContainerName c) info nowSec i L)
      as [E _]. rewrite E in H.
    exists pod, c, info, ctr, i. unfold matched. rewrite Hu, Hn. auto 10.
  - destruct (collectSlot_short pod (ContainerName c) info nowSec i L)
      as [E _]. unfold samples in H. rewrite E in H. destruct H.
Qed.

Lemma scrape_ctr_sample cc w m :
  In m (scrape cc w) -> In (desc m) ctrDescs ->
  In m (samples (collectContainers (pods cc) (records cc) (Now_Unix w))).
Proof.
  destruct (Collect_run cc w) as [-> _]. intros H D.
  apply in_app_or in H. destruct H as [H|H]; [|exact H].
  apply In_hostSamples in H. destruct H as [_ [ii [_ Hd]]].
  apply deviceSamples_shape in Hd. destruct Hd as [Hd _].
  destruct (host_or_ctr _ Hd D).
Qed.

Lemma joined_false ps cs :
  joined ps cs = false ->
  forall pod c ctr, In pod ps -> In c cs -> In ctr (Pod.Containers pod) ->
                    matched pod c ctr = false.
Proof.
  unfold joined. intros H pod c ctr Hp Hc Hctr.
  destruct (matched pod c ctr) eqn:Hm; [|reflexivity].
  rewrite <- H. symmetry. apply existsb_exists. exists pod. split; [auto|].
  apply existsb_exists. exists c. split; [auto|].
  apply existsb_exists. exists ctr. auto.
Qed.

Lemma collectContainers_filter ps cs nowSec :
  collectContainers ps (filter has_info cs) nowSec
  = collectContainers ps cs nowSec.
Proof.
  unfold collectContainers. induction ps as [|pod ps IH]; simpl;
    [reflexivity|].
  rewrite IH. f_equal.
  clear IH. induction cs as [|c cs IHc]; cbn [filter forM_]; [reflexivity|].
  assert (E : collectRecord pod nowSec c
              = if has_info c then collectRecord pod nowSec c else ret tt).
  { unfold has_info, collectRecord. now destruct (Info c). }
  destruct (has_info c); cbn [forM_]; rewrite IHc; [reflexivity|].
  now rewrite E, bind_ret_l.
Qed.

Lemma forM_idle {A : Type} (l : list A) (body : A -> M unit) :
  (forall x, In x l -> body x = ret tt) -> forM_ l body = ret tt.
Proof.
  induction l as [|x l IH]; intros H; simpl; [reflexivity|].
  rewrite (H x) by now left. rewrite bind_ret_l. apply IH.
  intros y Hy. apply H. now right.
Qed.

(** A record that matches no container of the pod goes by in silence. *)
Lemma collectRecord_unmatched pod nowSec c :
  (forall ctr, In ctr (Pod.Containers pod) -> matched pod c ctr = false) ->
  samples (collectRecord pod nowSec c) = []
  /\ panicked (collectRecord pod nowSec c) = false.
Proof.
  intros N. unfold collectRecord.
  destruct (Info c) as [info|]; [|split; reflexivity].
  rewrite strings_Compare_eqb.
  destruct (String.eqb (Pod.UID pod) (PodUID c)) eqn:Hu; simpl negb;
    cbv iota; [|split; reflexivity].
  skip_quiet; try reflexivity.
  rewrite forM_idle; [split; reflexivity|].
  intros ctr Hctr. unfold collectCtr. rewrite strings_Compare_eqb.
  specialize (N ctr Hctr). unfold matched in N. rewrite Hu in N.
  simpl in N. now rewrite N.
Qed.

(** So does a pod that no record matches. *)
Lemma collectPod_unmatched pod nowSec cs :
  (forall c ctr, In c cs -> In ctr (Pod.Containers pod) ->
                 matched pod c ctr = false) ->
  samples (forM_ cs (collectRecord pod nowSec)) = []
  /\ panicked (forM_ cs (collectRecord pod nowSec)) = false.
Proof.
  intros N.
  assert (P : panicked (forM_ cs (collectRecord pod nowSec)) = false).
  { apply returns_forM. intros c Hc. apply collectRecord_unmatched.
    intros ctr. now apply N. }
  split; [|exact P].
  destruct (samples (forM_ cs (collectRecord pod nowSec))) as [|m l] eqn:S;
    [reflexivity|].
  assert (Hm : In m (samples (forM_ cs (collectRecord pod nowSec))))
    by (rewrite S; now left).
  apply samples_forM_inv in Hm. destruct Hm as [c [Hc Hm]].
  rewrite (proj1 (collectRecord_unmatched pod nowSec c
                    (fun ctr => N c ctr Hc))) in Hm.
  destruct Hm.
Qed.

(** ** Host samples and failed reads *)

(** C1, at the input [uuidReadFails]: the UUID read of device 0 fails and
    its utilization read succeeds.  The scrape has no HostGPUMemoryUsage
    sample for device 0, but it does have a HostCoreUtilization sample for
    it, labelled with the empty string the failed read returned; device 1
    is reported in full. *)
Theorem uuid_failure_keeps_utilization_sample :
  uuid_ok (Nvml uuidReadFails) 0 = false
  /\ scrape idle uuidReadFails
     = [ mkMetric hostGPUUtilizationdesc GaugeValue 37 ["0"; ""]%string;
         mkMetric hostGPUdesc GaugeValue 2048 ["1"; "GPU-1"]%string;
         mkMetric hostGPUUtilizationdesc GaugeValue 12 ["1"; "GPU-1"]%string ].
Proof. split; vm_compute; reflexivity. Qed.

(** The slice of C1 that the code does keep: after a failed UUID read no
    HostGPUMemoryUsage sample carries the index of that device. *)
Lemma uuid_failure_omits_memory_sample cc w ii m :
  uuid_ok (Nvml w) ii = false ->
  In m (scrape cc w) -> desc m = hostGPUdesc ->
  nth_error (labelValues m) 0 <> Some (Sprint ii).
Proof.
  intros Hu Hm Hd L.
  assert (Hh : In m (hostSamples (Nvml w))).
  { apply (scrape_host_inv cc); [exact Hm|]. rewrite Hd. simpl. auto. }
  apply In_hostSamples in Hh. destruct Hh as [_ [jj [_ Hj]]].
  destruct (deviceSamples_inv _ _ _ Hj) as [[Hok ->]|[_ ->]].
  - simpl in L. injection L as L. apply Sprint_inj in L. congruence.
  - discriminate Hd.
Qed.

(** C2 as stated fails at [memoryReadFails]: the memory read of the only
    device fails, and the scrape still has a HostGPUMemoryUsage sample for
    it, with the value 0. *)
Lemma failed_memory_read_reports_zero :
  memory_ok (Nvml memoryReadFails) 0 = false
  /\ scrape idle memoryReadFails
     = [ mkMetric hostGPUdesc GaugeValue 0 ["0"; "GPU-0"]%string;
         mkMetric hostGPUUtilizationdesc GaugeValue 37
           ["0"; "GPU-0"]%string ].
Proof. split; vm_compute; reflexivity. Qed.

(** C2, amended.  For an enumerated device [ii]: when its memory read fails
    and its UUID read succeeds, the HostGPUMemoryUsage sample is sent with
    the value 0; when its utilization read fails, no HostCoreUtilization
    sample carries its index, and its HostGPUMemoryUsage sample is sent as
    usual. *)
Theorem failed_read_of_device cc w ii :
  count_ok (Nvml w) = true ->
  0 <= ii < fst (nvml.DeviceGetCount (Nvml w)) ->
  (memory_ok (Nvml w) ii = false -> uuid_ok (Nvml w) ii = true ->
   In (mkMetric hostGPUdesc GaugeValue 0 (hostLabels (Nvml w) ii))
      (scrape cc w))
  /\ (utilization_ok (Nvml w) ii = false ->
      (forall m, In m (scrape cc w) -> desc m = hostGPUUtilizationdesc ->
                 nth_error (labelValues m) 0 <> Some (Sprint ii))
      /\ (uuid_ok (Nvml w) ii = true ->
          In (memorySample (Nvml w) ii) (scrape cc w))).
Proof.
  intros Hc Hi.
  assert (S : uuid_ok (Nvml w) ii = true ->
              In (memorySample (Nvml w) ii) (scrape cc w)).
  { intros Hu. apply scrape_host, In_hostSamples. split; [exact Hc|].
    exists ii. split; [exact Hi|]. unfold deviceSamples. rewrite Hu.
    now left. }
  split.
  - intros Hm Hu. specialize (S Hu). unfold memorySample in S.
    now rewrite Hm in S.
  - intros Hu. split; [|exact S]. intros m Hm Hd L.
    assert (Hh : In m (hostSamples (Nvml w))).
    { apply (scrape_host_inv cc); [exact Hm|]. rewrite Hd. simpl. auto. }
    apply In_hostSamples in Hh. destruct Hh as [_ [jj [_ Hj]]].
    destruct (deviceSamples_inv _ _ _ Hj) as [[_ ->]|[Hok ->]].
    + discriminate Hd.
    + simpl in L. injection L as L. apply Sprint_inj in L. congruence.
Qed.

Lemma failed_read_of_device_witness :
  count_ok (Nvml onlyUUIDReads) = true
  /\ 0 <= 0 < fst (nvml.DeviceGetCount (Nvml onlyUUIDReads))
  /\ memory_ok (Nvml onlyUUIDReads) 0 = false
  /\ uuid_ok (Nvml onlyUUIDReads) 0 = true
  /\ utilization_ok (Nvml onlyUUIDReads) 0 = false
  /\ In (mkMetric hostGPUdesc GaugeValue 0 (hostLabels (Nvml onlyUUIDReads) 0))
        (scrape idle onlyUUIDReads)
  /\ In (memorySample (Nvml onlyUUIDReads) 0) (scrape idle onlyUUIDReads).
Proof.
  assert (Hc : count_ok (Nvml onlyUUIDReads) = true) by reflexivity.
  assert (Hi : 0 <= 0 < fst (nvml.DeviceGetCount (Nvml onlyUUIDReads)))
    by (simpl; lia).
  repeat split; try reflexivity; try (simpl; lia).
  - apply (proj1 (failed_read_of_device idle onlyUUIDReads 0 Hc Hi));
      reflexivity.
  - apply (proj2 (failed_read_of_device idle onlyUUIDReads 0 Hc Hi));
      reflexivity.
Defined.

(** C6 as stated fails at [hugeMemory]: the device reports 2^63 bytes in
    use, the conversion [int(memory.Used)] wraps, and the sample carries
    -2^63. *)
Lemma huge_memory_wraps :
  memory_ok (Nvml hugeMemory) 0 = true
  /\ uuid_ok (Nvml hugeMemory) 0 = true
  /\ nvml.Used (fst (nvml.GetMemoryInfo (handle (Nvml hugeMemory) 0)))
     = 2 ^ 63
  /\ scrape idle hugeMemory
     = [ mkMetric hostGPUdesc GaugeValue (- 2 ^ 63) ["0"; "GPU-0"]%string;
         mkMetric hostGPUUtilizationdesc GaugeValue 37
           ["0"; "GPU-0"]%string ]
  /\ ~ In (mkMetric hostGPUdesc GaugeValue (2 ^ 63) ["0"; "GPU-0"]%string)
          (scrape idle hugeMemory).
Proof.
  repeat split; try (vm_compute; reflexivity).
  vm_compute. intros [H|[H|[]]]; discriminate H.
Qed.

(** C6, amended.  For an enumerated device [ii] whose memory read and UUID
    read succeed, with [M] bytes in use, [M] below 2^63, and UUID [u], the
    scrape has the HostGPUMemoryUsage gauge sample of value [M] labelled
    with the decimal numeral of [ii] and with [u]. *)
Theorem host_memory_sample cc w ii M u :
  count_ok (Nvml w) = true ->
  0 <= ii < fst (nvml.DeviceGetCount (Nvml w)) ->
  memory_ok (Nvml w) ii = true ->
  uuid_ok (Nvml w) ii = true ->
  nvml.Used (fst (nvml.GetMemoryInfo (handle (Nvml w) ii))) = M ->
  fst (nvml.GetUUID (handle (Nvml w) ii)) = u ->
  0 <= M < 2 ^ 63 ->
  In (mkMetric hostGPUdesc GaugeValue M [Sprint ii; u]) (scrape cc w).
Proof.
  intros Hc Hi Hm Hu HM Hl Hr.
  apply scrape_host, In_hostSamples. split; [exact Hc|].
  exists ii. split; [exact Hi|].
  unfold deviceSamples, memorySample, hostLabels.
  rewrite Hu, Hm, HM, Hl, (int_small M Hr). now left.
Qed.

Lemma host_memory_sample_witness :
  0 <= 4096 < 2 ^ 63
  /\ In (mkMetric hostGPUdesc GaugeValue 4096 ["0"; "GPU-0"]%string)
        (scrape idle oneDevice).
Proof.
  split; [lia|].
  apply (host_memory_sample idle oneDevice 0 4096 "GPU-0");
    try reflexivity; simpl; lia.
Defined.

(** ** The join *)

(** C3.  Every per-container sample of a scrape was sent for a pod of the
    pod list and a usage record of the registry whose pod UID is the pod's
    UID and whose container name is the name of one of the pod's
    containers, both by string equality, and it carries that pod's
    namespace and name and that container name.  A panic, too, can only
    come from such a pair.  A pod that no record matches, and a record that
    matches no container of a pod, pass through the loops without a sample
    and without a panic; when no pod meets any record, the scrape is the
    host samples alone and it returns. *)
Theorem per_container_samples_are_joined cc w :
  (forall m, In m (scrape cc w) -> In (desc m) ctrDescs ->
     exists pod c info ctr i,
       In pod (pods cc) /\ In c (records cc) /\ Info c = Some info
       /\ In ctr (Pod.Containers pod)
       /\ Pod.UID pod = PodUID c /\ Container.Name ctr = ContainerName c
       /\ 0 <= i < DeviceNum info
       /\ In m (samples (collectSlot pod (ContainerName c) info
                           (Now_Unix w) i))
       /\ firstn 3 (labelValues m)
          = [Pod.Namespace pod; Pod.Name pod; ContainerName c])
  /\ (crashed cc w = true ->
      exists pod c ctr,
        In pod (pods cc) /\ In c (records cc)
        /\ In ctr (Pod.Containers pod)
        /\ Pod.UID pod = PodUID c /\ Container.Name ctr = ContainerName c)
  /\ (forall pod,
        (forall c ctr, In c (records cc) -> In ctr (Pod.Containers pod) ->
                       matched pod c ctr = false) ->
        samples (forM_ (records cc) (collectRecord pod (Now_Unix w))) = []
        /\ panicked (forM_ (records cc) (collectRecord pod (Now_Unix w)))
           = false)
  /\ (forall pod c,
        (forall ctr, In ctr (Pod.Containers pod) ->
                     matched pod c ctr = false) ->
        samples (collectRecord pod (Now_Unix w) c) = []
        /\ panicked (collectRecord pod (Now_Unix w) c) = false)
  /\ (joined (pods cc) (records cc) = false ->
      scrape cc w = hostSamples (Nvml w) /\ crashed cc w = false).
Proof.
  split; [|split; [|split; [|split]]];
    [| | intros pod; apply collectPod_unmatched
       | intros pod c; apply collectRecord_unmatched | ].
  - intros m Hm Hd. apply scrape_ctr_sample in Hm; [|exact Hd].
    apply collectContainers_sample in Hm.
    destruct Hm as [pod [c [info [ctr [i [Hp [Hc [Hi [Hctr [Hma [Hr [L H]]]]]]]]]]]].
    apply matched_eq in Hma. destruct Hma as [Hu Hn].
    exists pod, c, info, ctr, i. repeat split; auto; try lia.
    + now rewrite (proj1 (collectSlot_run pod _ info (Now_Unix w) i L)).
    + apply slotSamples_shape in H. destruct H as [_ H].
      destruct (labelValues m) as [|a [|b [|c' l]]]; try discriminate H.
      unfold baseLabels in H. simpl in H. simpl. congruence.
  - intros H. destruct (Collect_run cc w) as [_ C]. rewrite C in H.
    apply collectContainers_panic in H.
    destruct H as [pod [c [info [ctr [i [Hp [Hc [_ [Hctr [Hma _]]]]]]]]]].
    apply matched_eq in Hma. destruct Hma as [Hu Hn].
    exists pod, c, ctr. auto.
  - intros H. pose proof (joined_false _ _ H) as N.
    destruct (Collect_run cc w) as [E C].
    set (J := collectContainers (pods cc) (records cc) (Now_Unix w)) in *.
    assert (P : panicked J = false).
    { destruct (panicked J) eqn:P; [|reflexivity].
      apply collectContainers_panic in P.
      destruct P as [pod [c [info [ctr [i [Hp [Hc [_ [Hctr [Hma _]]]]]]]]]].
      rewrite (N pod c ctr Hp Hc Hctr) in Hma. discriminate. }
    assert (S : samples J = []).
    { destruct (samples J) as [|m l] eqn:S; [reflexivity|].
      assert (Hm : In m (samples J)) by (rewrite S; now left).
      apply collectContainers_sample in Hm.
      destruct Hm as [pod [c [info [ctr [i [Hp [Hc [_ [Hctr [Hma _]]]]]]]]]].
      rewrite (N pod c ctr Hp Hc Hctr) in Hma. discriminate. }
    rewrite E, C, S, P, app_nil_r. auto.
Qed.

Lemma per_container_samples_are_joined_witness :
  joined (pods strangers) (records strangers) = false
  /\ scrape strangers oneDevice = hostSamples (Nvml oneDevice)
  /\ crashed strangers oneDevice = false.
Proof.
  split; [reflexivity|].
  apply (proj2 (proj2 (proj2 (proj2
           (per_container_samples_are_joined strangers oneDevice))))).
  reflexivity.
Defined.

(** C10.  Usage records whose info is nil send nothing and raise nothing,
    matched or not: a scrape over a registry is the scrape over the same
    registry without them, and the loop body of such a record does nothing
    at all. *)
Theorem nil_info_records_are_skipped cc cc' w :
  pods cc' = pods cc ->
  records cc' = filter has_info (records cc) ->
  scrape cc' w = scrape cc w
  /\ crashed cc' w = crashed cc w
  /\ (forall pod c, Info c = None ->
                    collectRecord pod (Now_Unix w) c = ret tt).
Proof.
  intros Hp Hr. destruct (Collect_run cc w) as [-> ->].
  destruct (Collect_run cc' w) as [-> ->].
  rewrite Hp, Hr, collectContainers_filter. repeat split.
  intros pod c Hi. unfold collectRecord. now rewrite Hi.
Qed.

Lemma nil_info_records_are_skipped_witness :
  pods (scenario 0 0 0 0 0) = pods withNilRecord
  /\ records (scenario 0 0 0 0 0) = filter has_info (records withNilRecord)
  /\ scrape (scenario 0 0 0 0 0) oneDevice = scrape withNilRecord oneDevice
  /\ crashed (scenario 0 0 0 0 0) oneDevice = crashed withNilRecord oneDevice.
Proof.
  assert (Hp : pods (scenario 0 0 0 0 0) = pods withNilRecord)
    by reflexivity.
  assert (Hr : records (scenario 0 0 0 0 0)
               = filter has_info (records withNilRecord)) by reflexivity.
  destruct (nil_info_records_are_skipped withNilRecord (scenario 0 0 0 0 0)
              oneDevice Hp Hr) as [E [C _]].
  auto.
Defined.

(** C7.  In the concrete scenario (pod "p1" = ns/pod-a with container
    "c1", one usage record for ("p1", "c1") with one slot: a UUID of 40
    bytes, total 1024, limit 2048, SM utilization 55, last kernel time 0)
    the per-container samples of the scrape are exactly the four of
    [scenarioSamples], after the host samples; each carries the labels
    (ns, pod-a, c1, "0", uuid) first, and none is a last-kernel sample. *)
Theorem scenario_samples (context module data offset : Z) (w : World) :
  scrape (scenario context module data offset 0) w
  = hostSamples (Nvml w) ++ scenarioSamples context module data offset
  /\ crashed (scenario context module data offset 0) w = false
  /\ map (fun m => (fqName (desc m), value m))
       (scenarioSamples context module data offset)
     = [ ("vGPU_device_memory_usage_in_bytes", 1024);
         ("vGPU_device_memory_limit_in_bytes", 2048);
         ("Device_memory_desc_of_container", 1024);
         ("Device_utilization_desc_of_container", 55) ]%string
  /\ Forall (fun m => firstn 5 (labelValues m)
                      = ["ns"; "pod-a"; "c1"; "0"; uuid40]%string
                      /\ desc m <> ctrDeviceLastKernelDesc)
       (scenarioSamples context module data offset).
Proof.
  destruct (scrape_returned (scenario context module data offset 0) w)
    as [-> ->]; [reflexivity|].
  repeat split.
  repeat constructor; try reflexivity; discriminate.
Qed.

(** ** Slots: the UUID label and the last kernel *)



(** Length is not all: [uuid41] is valid UTF-8 and has 41 bytes, but its
    first 40 bytes end inside a character, the metric constructor rejects
    them, and again nothing is delivered for the container. *)
Lemma cut_uuid_panics :
  ValidString uuid41 = true
  /\ String.length uuid41 = 41%nat
  /\ ValidString (String.substring 0 40 uuid41) = false
  /\ crashed (cutUUID 0) noDevice = true
  /\ scrape (cutUUID 0) noDevice = [].
Proof. repeat split; vm_compute; reflexivity. Qed.







(** ** Errors and order *)

Lemma trace_bind {A B : Type} (m : M A) (k : A -> M B) :
  trace (bind m k)
  = trace m ++ match snd m with
               | Some a => trace (k a)
               | None => []
               end.
Proof.
  destruct m as [t [a|]]; simpl.
  - unfold trace. destruct (k a). reflexivity.
  - unfold trace. simpl. now rewrite app_nil_r.
Qed.

Lemma upto_ascending (n : Z) : StronglySorted Z.lt (upto n).
Proof.
  unfold upto. generalize 0%nat as a.
  induction (Z.to_nat n) as [|len IH]; intros a; simpl; constructor.
  - apply IH.
  - apply Forall_forall. intros x Hx. apply in_map_iff in Hx.
    destruct Hx as [k [<- Hk]]. apply in_seq in Hk. lia.
Qed.

(** C8 as stated fails at [failedListing]: the pod listing returns an
    error together with a pod, and the join runs over that pod instead of
    an empty pod set. *)
Lemma failed_listing_is_not_emptied :
  snd (List (PodLister_ (ClusterManager_ failedListing)) Everything)
  = Some "pod cache not synced"%string
  /\ scrape failedListing noDevice = scenarioSamples 0 0 0 0
  /\ scrape failedListing noDevice <> hostSamples (Nvml noDevice).
Proof. repeat split. discriminate. Qed.

(** C8, amended.  No error reported by a collaborator aborts the scrape:
    whatever the registry refresh, NVML's Init and the pod listing
    report, the scrape is the host samples followed by what the join
    sends over the pods the listing returned and the records the registry
    holds.  A failed refresh is logged and the join reads the stale
    records; a failed listing is logged and the join reads the pods
    returned with the error, so it sends nothing when there are none; a
    failed device count leaves the join as the whole scrape. *)
Theorem errors_do_not_abort cc w :
  let cm := ClusterManager_ cc in
  let join := collectContainers (pods cc) (records cc) (Now_Unix w) in
  scrape cc w = hostSamples (Nvml w) ++ samples join
  /\ crashed cc w = panicked join
  /\ (forall e, snd (Update (containerLister cm)) = Some e ->
        records cc = containers (containerLister cm)
        /\ In (Klog (ErrUpdate e)) (trace (snd (Collect cc w))))
  /\ (forall e, snd (List (PodLister_ cm) Everything) = Some e ->
        In (Klog (ErrListPods e)) (trace (snd (Collect cc w))))
  /\ (pods cc = [] -> scrape cc w = hostSamples (Nvml w)
                      /\ crashed cc w = false)
  /\ (count_ok (Nvml w) = false -> scrape cc w = samples join).
Proof.
  intros cm join. destruct (Collect_run cc w) as [E C].
  split; [exact E|]. split; [exact C|].
  assert (Hh : exists t, collectHost (Nvml w) = (t, Some tt)).
  { destruct (collectHost_run (Nvml w)) as [_ P]. unfold panicked in P.
    destruct (collectHost (Nvml w)) as [t [[]|]]; [now exists t|].
    discriminate. }
  destruct Hh as [t Ht].
  split; [|split; [|split]].
  - intros e He. unfold records, Collect. fold cm. unfold Update in He |- *.
    destruct (refresh (containerLister cm) (containers (containerLister cm)))
      as [cs|e'].
    + discriminate He.
    + split; [reflexivity|]. simpl in He. injection He as ->.
      cbn [snd]. rewrite !trace_bind. cbn [snd klog emit trace fst app].
      right. now left.
  - intros e He. unfold Collect. fold cm.
    destruct (Update (containerLister cm)) as [lister uerr].
    destruct (List (PodLister_ cm) Everything) as [ps lerr].
    simpl in He. subst lerr. cbn [snd].
    rewrite !trace_bind. cbn [snd klog emit]. rewrite Ht.
    destruct uerr; cbn [snd klog emit ret trace fst];
      do 3 (apply in_or_app; right); apply in_or_app; left; now left.
  - intros Hp. rewrite E, C. unfold join. rewrite Hp. simpl.
    now rewrite app_nil_r.
  - intros Hc. rewrite E. unfold hostSamples. now rewrite Hc.
Qed.

Lemma errors_do_not_abort_witness :
  snd (List (PodLister_ (ClusterManager_ failedListing)) Everything)
  = Some "pod cache not synced"%string
  /\ In (Klog (ErrListPods "pod cache not synced"))
        (trace (snd (Collect failedListing oneDevice))).
Proof.
  split; [reflexivity|].
  apply (proj1 (proj2 (proj2 (proj2
           (errors_do_not_abort failedListing oneDevice))))).
  reflexivity.
Defined.

(** C9.  The samples of a scrape are the host samples, device by device in
    ascending index ([hostSamples]), followed by the per-container samples
    in the order of [joinSamples]: pod by pod in pod-list order, within a
    pod record by record and container by container, within a container
    slot by slot in ascending index.  A scrape that panics delivers an
    initial segment of that sequence; the host samples are always
    complete. *)
Theorem emission_order cc w :
  exists ctr rest,
    scrape cc w = hostSamples (Nvml w) ++ ctr
    /\ joinSamples (pods cc) (records cc) (Now_Unix w) = ctr ++ rest
    /\ (crashed cc w = false -> rest = [])
    /\ Forall (fun m => In (desc m) hostDescs) (hostSamples (Nvml w))
    /\ Forall (fun m => In (desc m) ctrDescs) ctr.
Proof.
  destruct (Collect_run cc w) as [E C].
  set (J := collectContainers (pods cc) (records cc) (Now_Unix w)) in *.
  destruct (collectContainers_delivers (pods cc) (records cc) (Now_Unix w))
    as [[rest R] P]. fold J in R, P.
  exists (samples J), rest. repeat split; auto.
  - intros H. rewrite C in H. specialize (P H). rewrite <- P in R.
    rewrite <- (app_nil_r (samples J)) in R at 1.
    apply app_inv_head in R. now symmetry.
  - apply Forall_forall. intros m Hm. apply In_hostSamples in Hm.
    destruct Hm as [_ [ii [_ Hd]]]. now apply deviceSamples_shape in Hd.
  - apply Forall_forall. intros m Hm. apply collectContainers_sample in Hm.
    destruct Hm as [pod [c [info [ctr [i [_ [_ [_ [_ [_ [_ [_ H]]]]]]]]]]]].
    now apply slotSamples_shape in H.
Qed.

(** ** Laws of runs and loops *)

Lemma bind_ret_r {A : Type} (m : M A) : bind m ret = m.
Proof.
  destruct m as [t [a|]]; unfold bind, ret; [|reflexivity].
  now rewrite app_nil_r.
Qed.

Lemma bind_assoc {A B C : Type} (m : M A) (k : A -> M B) (h : B -> M C) :
  bind (bind m k) h = bind m (fun a => bind (k a) h).
Proof.
  destruct m as [t [a|]]; unfold bind; [|reflexivity].
  destruct (k a) as [t1 [b|]]; [|reflexivity].
  destruct (h b) as [t2 r]. now rewrite app_assoc.
Qed.

Lemma forM_app {A : Type} (l l' : list A) (body : A -> M unit) :
  forM_ (l ++ l') body = bind (forM_ l body) (fun _ => forM_ l' body).
Proof.
  induction l as [|x l IH]; cbn [app forM_].
  - symmetry. apply (bind_ret_l (fun _ => forM_ l' body)).
  - now rewrite IH, bind_assoc.
Qed.

Lemma forM_map {A B : Type} (g : A -> B) (l : list A) (body : B -> M unit) :
  forM_ (map g l) body = forM_ l (fun x => body (g x)).
Proof. induction l as [|x l IH]; simpl; [reflexivity|now rewrite IH]. Qed.

Lemma same_on_refl keep m : same_on keep m m.
Proof. split; reflexivity. Qed.

Lemma same_on_bind keep (m m' : M unit) (k k' : unit -> M unit) :
  same_on keep m m' -> same_on keep (k tt) (k' tt) ->
  same_on keep (bind m k) (bind m' k').
Proof.
  intros [S P] [Sk Pk]. destruct (panicked m) eqn:Pm.
  - assert (Hm : snd m = None).
    { unfold panicked in Pm. now destruct (snd m). }
    assert (Hm' : snd m' = None).
    { symmetry in P. unfold panicked in P. now destruct (snd m'). }
    split.
    + pose proof (samples_bind_panic m k Hm) as E.
      pose proof (samples_bind_panic m' k' Hm') as E'. congruence.
    + rewrite !panicked_bind, Hm, Hm'. reflexivity.
  - symmetry in P. unfold same_on.
    destruct (bind_returns m k Pm) as [-> ->].
    destruct (bind_returns m' k' P) as [-> ->].
    split; [|exact Pk]. rewrite !filter_app. now rewrite S, Sk.
Qed.

Lemma same_on_forM {A : Type} keep (l : list A) (body body' : A -> M unit) :
  (forall x, In x l -> same_on keep (body x) (body' x)) ->
  same_on keep (forM_ l body) (forM_ l body').
Proof.
  induction l as [|x l IH]; intros H; simpl.
  - apply same_on_refl.
  - apply same_on_bind; [apply H; now left|].
    apply IH. intros y Hy. apply H. now right.
Qed.

Lemma filter_all {A : Type} (l : list A) : filter (fun _ => true) l = l.
Proof. induction l as [|x l IH]; simpl; [reflexivity|now rewrite IH]. Qed.

Lemma same_on_scrape keep cc cc' w w' :
  hostSamples (Nvml w) = hostSamples (Nvml w') ->
  same_on keep
    (collectContainers (pods cc) (records cc) (Now_Unix w))
    (collectContainers (pods cc') (records cc') (Now_Unix w')) ->
  filter keep (scrape cc w) = filter keep (scrape cc' w')
  /\ crashed cc w = crashed cc' w'.
Proof.
  intros Hh [S P]. destruct (Collect_run cc w) as [-> ->].
  destruct (Collect_run cc' w') as [-> ->].
  split; [|exact P]. now rewrite !filter_app, Hh, S.
Qed.

(** ** When a scrape panics *)

Lemma forM_returned {A : Type} (l : list A) (body : A -> M unit) :
  panicked (forM_ l body) = false ->
  forall x, In x l -> panicked (body x) = false.
Proof.
  induction l as [|a l IH]; simpl; [intros _ x []|].
  rewrite panicked_bind. intros H x [<-|Hx].
  - unfold panicked. destruct (snd (body a)); [reflexivity|discriminate].
  - destruct (snd (body a)); [now apply IH|discriminate].
Qed.

Lemma uuids_ok_false info :
  uuids_ok info = false ->
  exists i, In i (upto (DeviceNum info))
            /\ cut_ok (DeviceUUID info i) = false.
Proof.
  unfold uuids_ok.
  induction (upto (DeviceNum info)) as [|a l IH]; cbn [forallb].
  - discriminate.
  - destruct (cut_ok (DeviceUUID info a)) eqn:L; cbn [andb].
    + intros H. destruct (IH H) as [i [Hi Hs]]. exists i. split; auto.
      now right.
    + intros _. exists a. split; auto. now left.
Qed.

Lemma panics_iff_bad_slot cc w :
  crashed cc w = bad_slot (pods cc) (records cc).
Proof.
  destruct (Collect_run cc w) as [_ ->].
  set (J := collectContainers (pods cc) (records cc) (Now_Unix w)).
  destruct (bad_slot (pods cc) (records cc)) eqn:S.
  - unfold bad_slot in S. apply existsb_exists in S.
    destruct S as [pod [Hp S]]. apply existsb_exists in S.
    destruct S as [c [Hc S]]. destruct (Info c) as [info|] eqn:Hi;
      [|discriminate].
    apply andb_true_iff in S. destruct S as [S U].
    apply existsb_exists in S. destruct S as [ctr [Hctr Hm]].
    apply negb_true_iff in U. apply uuids_ok_false in U.
    destruct U as [i [Hr L]].
    destruct (panicked J) eqn:P; [reflexivity|exfalso].
    unfold J, collectContainers in P.
    pose proof (forM_returned _ _ P pod Hp) as P1.
    pose proof (forM_returned _ _ P1 c Hc) as P2.
    unfold collectRecord in P2. rewrite Hi in P2.
    apply matched_eq in Hm. destruct Hm as [Hu Hn].
    rewrite strings_Compare_eqb in P2.
    apply String.eqb_eq in Hu. rewrite Hu in P2. simpl negb in P2.
    cbv iota in P2. rewrite panicked_bind in P2. cbn [snd emit] in P2.
    pose proof (forM_returned _ _ P2 ctr Hctr) as P3.
    unfold collectCtr in P3. rewrite strings_Compare_eqb in P3.
    apply String.eqb_eq in Hn. rewrite Hn in P3. simpl negb in P3.
    cbv iota in P3. rewrite panicked_bind in P3. cbn [snd emit] in P3.
    pose proof (forM_returned _ _ P3 i Hr) as P4.
    destruct (collectSlot_short pod (ContainerName c) info (Now_Unix w) i L)
      as [_ Q]. congruence.
  - destruct (panicked J) eqn:P; [exfalso|reflexivity].
    apply collectContainers_panic in P.
    destruct P as [pod [c [info [ctr [i [Hp [Hc [Hi [Hctr [Hm [Hr L]]]]]]]]]]].
    assert (T : bad_slot (pods cc) (records cc) = true);
      [|congruence].
    unfold bad_slot. apply existsb_exists. exists pod. split; [auto|].
    apply existsb_exists. exists c. split; [auto|]. rewrite Hi.
    apply andb_true_iff. split.
    + apply existsb_exists. exists ctr. auto.
    + apply negb_true_iff. destruct (uuids_ok info) eqn:U; [|reflexivity].
      apply In_upto in Hr. pose proof (uuids_ok_slot info i U Hr) as Q.
      congruence.
Qed.

(** X1.  Label values delivered by the collaborators being valid UTF-8, a
    scrape panics exactly when the join holds a matched container (a
    record with an info, a pod with its UID, one of the pod's containers
    with its name) one of whose slots has a UUID that is shorter than 40
    bytes, so that the slice panics, or whose first 40 bytes are not valid
    UTF-8, so that the metric constructor panics.  Label counts always
    fit. *)
Theorem scrape_panics_iff_bad_uuid cc w :
  crashed cc w = true <->
  exists pod c info ctr i,
    In pod (pods cc) /\ In c (records cc) /\ Info c = Some info
    /\ In ctr (Pod.Containers pod)
    /\ Pod.UID pod = PodUID c /\ Container.Name ctr = ContainerName c
    /\ 0 <= i < DeviceNum info
    /\ ((String.length (DeviceUUID info i) < 40)%nat
        \/ ValidString (String.substring 0 40 (DeviceUUID info i)) = false).
Proof.
  rewrite panics_iff_bad_slot. split.
  - intros S. unfold bad_slot in S. apply existsb_exists in S.
    destruct S as [pod [Hp S]]. apply existsb_exists in S.
    destruct S as [c [Hc S]]. destruct (Info c) as [info|] eqn:Hi;
      [|discriminate].
    apply andb_true_iff in S. destruct S as [S U].
    apply existsb_exists in S. destruct S as [ctr [Hctr Hm]].
    apply negb_true_iff in U. apply uuids_ok_false in U.
    destruct U as [i [Hr L]]. apply In_upto in Hr.
    apply matched_eq in Hm. destruct Hm as [Hu Hn].
    exists pod, c, info, ctr, i. repeat split; auto; try lia.
    unfold cut_ok in L. apply andb_false_iff in L. destruct L as [L|L].
    + left. now apply Nat.leb_gt in L.
    + now right.
  - intros [pod [c [info [ctr [i [Hp [Hc [Hi [Hctr [Hu [Hn [Hr L]]]]]]]]]]]].
    unfold bad_slot. apply existsb_exists. exists pod. split; [auto|].
    apply existsb_exists. exists c. split; [auto|]. rewrite Hi.
    apply andb_true_iff. split.
    + apply existsb_exists. exists ctr. split; [auto|].
      now apply matched_eq.
    + apply negb_true_iff. destruct (uuids_ok info) eqn:U; [|reflexivity].
      assert (Hin : In i (upto (DeviceNum info))) by now apply In_upto.
      pose proof (uuids_ok_slot info i U Hin) as Q.
      apply andb_true_iff in Q. destruct Q as [Q1 Q2].
      apply Nat.leb_le in Q1. destruct L as [L|L]; [lia|congruence].
Qed.

Lemma scrape_panics_iff_bad_uuid_witness :
  crashed (cutUUID 0) oneDevice = true.
Proof.
  apply (proj2 (scrape_panics_iff_bad_uuid (cutUUID 0) oneDevice)).
  exists pod_a, (record_c1 (Some (oneSlot uuid41 0 0 0 0 0))),
    (oneSlot uuid41 0 0 0 0 0), {| Container.Name := "c1" |}, 0.
  repeat split; try (now left); try lia.
  right. vm_compute. reflexivity.
Defined.

(** X2.  Every sample a scrape delivers is well formed: it has as many
    label values as its descriptor has label names, and it is a gauge,
    except the Device_memory_desc_of_container sample, which is a counter. *)
Theorem samples_fit_their_descriptor cc w m :
  In m (scrape cc w) ->
  List.length (labelValues m) = List.length (variableLabels (desc m))
  /\ (valueType m = CounterValue <-> desc m = ctrDeviceMemorydesc).
Proof.
  intros H. apply scrape_inv in H. destruct H as [H|H].
  - apply In_hostSamples in H. destruct H as [_ [ii [_ H]]].
    destruct (deviceSamples_inv _ _ _ H) as [[_ ->]|[_ ->]]; simpl;
      (split; [reflexivity|split; discriminate]).
  - apply In_joinSamples in H.
    destruct H as [pod [c [info [ctr [i [_ [_ [_ [_ [_ [_ H]]]]]]]]]]].
    unfold slotSamples, lastKernelSample in H. apply in_app_or in H.
    destruct H as [H|H].
    + simpl in H. destruct H as [<-|[<-|[<-|[<-|[]]]]]; simpl;
        (split; [reflexivity|split; (discriminate || reflexivity)]).
    + destruct (0 <? LastKernelTime info); simpl in H; [|easy].
      destruct H as [<-|[]]. simpl. split; [reflexivity|split; discriminate].
Qed.

Lemma samples_fit_their_descriptor_witness :
  List.length ["0"; "GPU-0"]%string
  = List.length (variableLabels hostGPUdesc).
Proof.
  apply (samples_fit_their_descriptor idle oneDevice
           (mkMetric hostGPUdesc GaugeValue 4096 ["0"; "GPU-0"]%string)).
  vm_compute. now left.
Defined.

(** ** The host phase, further *)

(** X3.  Neither the status of NVML's [Init] nor the status of a handle
    lookup changes a scrape: the device loop runs whatever [Init] reported
    and reads through the handle it was given whatever the lookup
    reported. *)
Theorem init_and_lookup_status_are_ignored cc w init lookup_ret :
  scrape cc (with_statuses init lookup_ret w) = scrape cc w
  /\ crashed cc (with_statuses init lookup_ret w) = crashed cc w.
Proof.
  destruct (Collect_run cc w) as [-> ->].
  destruct (Collect_run cc (with_statuses init lookup_ret w)) as [-> ->].
  split; reflexivity.
Qed.

Lemma NoDup_upto (n : Z) : NoDup (upto n).
Proof.
  pose proof (upto_ascending n) as H.
  induction H as [|a l _ IH F]; constructor; [|exact IH].
  intros Ha. rewrite Forall_forall in F. specialize (F a Ha). lia.
Qed.

Lemma NoDup_series_flat_map {A : Type} (f : A -> list Metric) (l : list A) :
  NoDup l ->
  (forall a, In a l -> NoDup (map series (f a))) ->
  (forall a b x y, In a l -> In b l -> a <> b ->
                   In x (f a) -> In y (f b) -> series x <> series y) ->
  NoDup (map series (flat_map f l)).
Proof.
  induction 1 as [|a l Ha Hl IH]; intros H1 H2; simpl; [constructor|].
  rewrite map_app. apply NoDup_app.
  - apply H1. now left.
  - apply IH.
    + intros b Hb. apply H1. now right.
    + intros b c x y Hb Hc. apply H2; now right.
  - intros k Hk Hk'. apply in_map_iff in Hk. destruct Hk as [x [<- Hx]].
    apply in_map_iff in Hk'. destruct Hk' as [y [E Hy]].
    apply in_flat_map in Hy. destruct Hy as [b [Hb Hy]].
    assert (Hab : a <> b) by (intros ->; contradiction).
    apply (H2 a b x y (or_introl eq_refl) (or_intror Hb) Hab Hx Hy).
    now symmetry.
Qed.

(** X4.  The host phase never sends the same time series twice: no two of
    its samples have the same metric name and the same label values. *)
Theorem host_series_are_distinct (n : nvml.Interface) :
  NoDup (map series (samples (collectHost n))).
Proof.
  rewrite (proj1 (collectHost_run n)). unfold hostSamples.
  destruct (count_ok n); [|constructor].
  apply NoDup_series_flat_map.
  - apply NoDup_upto.
  - intros a _. unfold deviceSamples.
    destruct (uuid_ok n a), (utilization_ok n a); simpl;
      repeat constructor; simpl; try tauto.
    intros [H|[]]. discriminate H.
  - intros a b x y _ _ Hab Hx Hy E.
    destruct (deviceSamples_shape _ _ _ Hx) as [_ Lx].
    destruct (deviceSamples_shape _ _ _ Hy) as [_ Ly].
    unfold series in E. injection E as _ E. rewrite Lx, Ly in E.
    unfold hostLabels in E. injection E as E _.
    apply Sprint_inj in E. contradiction.
Qed.

(** ** Slots, further *)

(** X5.  A slot whose UUID has at least 40 bytes, the first 40 of them
    valid UTF-8, sends five samples when the record's last kernel time is
    positive and four otherwise; the Device_last_kernel_of_container sample
    is among them exactly when that time is positive, so a negative time
    is passed over like 0.  A slot with a shorter UUID, or with a UUID
    whose first 40 bytes are not valid UTF-8, sends nothing and panics. *)
Theorem slot_sample_count pod ctrName info nowSec i :
  let uuid := DeviceUUID info i in
  let run := collectSlot pod ctrName info nowSec i in
  ((40 <= String.length uuid)%nat ->
   ValidString (String.substring 0 40 uuid) = true ->
   List.length (samples run)
   = (if 0 <? LastKernelTime info then 5%nat else 4%nat)
   /\ existsb is_last_kernel (samples run) = (0 <? LastKernelTime info)
   /\ panicked run = false)
  /\ ((String.length uuid < 40)%nat
      \/ ValidString (String.substring 0 40 uuid) = false ->
      trace run = [] /\ samples run = [] /\ panicked run = true).
Proof.
  intros uuid run. split.
  - intros L V.
    assert (C : cut_ok uuid = true).
    { unfold cut_ok. apply Nat.leb_le in L. now rewrite L, V. }
    destruct (collectSlot_run pod ctrName info nowSec i C) as [E P].
    unfold run. rewrite E. unfold slotSamples.
    destruct (0 <? LastKernelTime info); repeat split; auto.
  - intros B.
    assert (C : cut_ok uuid = false).
    { unfold cut_ok. apply andb_false_iff.
      destruct B as [B|B]; [left; now apply Nat.leb_gt|now right]. }
    destruct (collectSlot_short pod ctrName info nowSec i C) as [E P].
    unfold run, samples. rewrite E. auto.
Qed.

Lemma slot_sample_count_witness :
  (40 <= String.length uuid40)%nat
  /\ ValidString (String.substring 0 40 uuid40) = true
  /\ List.length
       (samples (collectSlot pod_a "c1" (oneSlot uuid40 0 0 0 0 (-5))
                   1700000000 0)) = 4%nat.
Proof.
  assert (L : (40 <= String.length uuid40)%nat) by (vm_compute; lia).
  assert (V : ValidString (String.substring 0 40 uuid40) = true)
    by (vm_compute; reflexivity).
  split; [exact L|]. split; [exact V|].
  exact (proj1 (proj1 (slot_sample_count pod_a "c1"
                         (oneSlot uuid40 0 0 0 0 (-5)) 1700000000 0) L V)).
Defined.

(** X6.  For a slot whose UUID has at least 40 bytes, the first 40 of them
    valid UTF-8: with a clock at or after the epoch and a last kernel time
    that is a positive [int64], the subtraction cannot overflow, and the
    slot sends the last-kernel sample with the exact age, 0 for a time in
    the future, and never more than the clock itself. *)
Theorem last_kernel_age_is_exact pod ctrName info nowSec i :
  (40 <= String.length (DeviceUUID info i))%nat ->
  ValidString (String.substring 0 40 (DeviceUUID info i)) = true ->
  0 <= nowSec < 2 ^ 63 ->
  0 < LastKernelTime info < 2 ^ 63 ->
  In (mkMetric ctrDeviceLastKernelDesc GaugeValue
        (Z.max 0 (nowSec - LastKernelTime info))
        (baseLabels pod ctrName info i))
     (samples (collectSlot pod ctrName info nowSec i))
  /\ sub64 nowSec (LastKernelTime info) = nowSec - LastKernelTime info
  /\ 0 <= Z.max 0 (nowSec - LastKernelTime info) <= nowSec.
Proof.
  intros L V Hn Hl.
  assert (C : cut_ok (DeviceUUID info i) = true).
  { unfold cut_ok. apply Nat.leb_le in L. now rewrite L, V. }
  assert (S : sub64 nowSec (LastKernelTime info)
              = nowSec - LastKernelTime info).
  { apply sub64_exact. unfold in_int64. lia. }
  split; [|split; [exact S|lia]].
  rewrite (proj1 (collectSlot_run pod ctrName info nowSec i C)).
  unfold slotSamples. apply in_or_app. right.
  assert (P : (0 <? LastKernelTime info) = true) by (apply Z.ltb_lt; lia).
  rewrite P. left. unfold lastKernelSample, elapsed. now rewrite S.
Qed.

Lemma last_kernel_age_is_exact_witness :
  (40 <= String.length uuid40)%nat
  /\ ValidString (String.substring 0 40 uuid40) = true
  /\ 0 <= 1700000000 < 2 ^ 63
  /\ 0 < 1699999000 < 2 ^ 63
  /\ In (mkMetric ctrDeviceLastKernelDesc GaugeValue 1000
           ["ns"; "pod-a"; "c1"; "0"; uuid40]%string)
        (samples (collectSlot pod_a "c1" (oneSlot uuid40 0 0 0 0 1699999000)
                    1700000000 0)).
Proof.
  assert (L : (40 <= String.length uuid40)%nat) by (vm_compute; lia).
  assert (V : ValidString (String.substring 0 40 uuid40) = true)
    by (vm_compute; reflexivity).
  split; [exact L|]. split; [exact V|]. split; [lia|]. split; [lia|].
  exact (proj1 (last_kernel_age_is_exact pod_a "c1"
                  (oneSlot uuid40 0 0 0 0 1699999000) 1700000000 0
                  L V ltac:(lia) ltac:(cbn; lia))).
Defined.

(** X7.  Within one container the slot loop never sends the same time
    series twice: the samples of different slots differ in the vdeviceid
    label, those of one slot in the metric name. *)
Theorem slot_series_are_distinct pod ctrName info nowSec :
  NoDup (map series
           (samples (forM_ (upto (DeviceNum info))
                       (collectSlot pod ctrName info nowSec)))).
Proof.
  destruct (delivers_forM (upto (DeviceNum info))
              (collectSlot pod ctrName info nowSec)
              (slotSamples pod ctrName info nowSec)) as [[rest E] _].
  { intros x _. apply collectSlot_delivers. }
  apply (NoDup_app_remove_r _ (map series rest)). rewrite <- map_app, <- E.
  apply NoDup_series_flat_map.
  - apply NoDup_upto.
  - intros a _. unfold slotSamples, lastKernelSample.
    destruct (0 <? LastKernelTime info); simpl;
      repeat constructor; simpl;
      intros H; repeat (destruct H as [H|H]; [discriminate H|]);
      exact H.
  - intros a b x y _ _ Hab Hx Hy K.
    destruct (slotSamples_shape _ _ _ _ _ _ Hx) as [_ Lx].
    destruct (slotSamples_shape _ _ _ _ _ _ Hy) as [_ Ly].
    unfold series in K. injection K as _ K. rewrite K in Lx.
    rewrite Lx in Ly. unfold baseLabels in Ly. injection Ly as Ly _.
    apply Sprint_inj in Ly. contradiction.
Qed.

(** ** Counting host samples *)

Lemma length_upto (n : Z) : List.length (upto n) = Z.to_nat n.
Proof. unfold upto. now rewrite length_map, length_seq. Qed.

(** X15.  The host phase sends at most two samples for each enumerated
    device, and exactly two for each when NVML answers every call with
    success. *)
Theorem host_sample_count (n : nvml.Interface) :
  (List.length (samples (collectHost n))
   <= 2 * Z.to_nat (fst (nvml.DeviceGetCount n)))%nat
  /\ (nvml_healthy n = true ->
      List.length (samples (collectHost n))
      = (2 * Z.to_nat (fst (nvml.DeviceGetCount n)))%nat).
Proof.
  rewrite (proj1 (collectHost_run n)). unfold hostSamples, nvml_healthy.
  rewrite <- length_upto. split.
  - destruct (count_ok n); [|simpl; lia].
    induction (upto (fst (nvml.DeviceGetCount n))) as [|a l IH];
      [simpl; lia|].
    cbn [flat_map]. rewrite length_app. unfold deviceSamples at 1.
    destruct (uuid_ok n a), (utilization_ok n a); simpl in *; lia.
  - intros H. apply andb_true_iff in H. destruct H as [H Hd].
    apply andb_true_iff in H. destruct H as [_ Hc]. rewrite Hc.
    rewrite forallb_forall in Hd.
    induction (upto (fst (nvml.DeviceGetCount n))) as [|a l IH];
      [reflexivity|].
    cbn [flat_map]. rewrite length_app. unfold deviceSamples at 1.
    assert (Ha := Hd a (or_introl eq_refl)).
    apply andb_true_iff in Ha. destruct Ha as [Ha H4].
    apply andb_true_iff in Ha. destruct Ha as [Ha H3].
    rewrite H3, H4. rewrite IH; [simpl; lia|].
    intros x Hx. apply Hd. now right.
Qed.

Lemma host_sample_count_witness :
  nvml_healthy (Nvml oneDevice) = true
  /\ List.length (samples (collectHost (Nvml oneDevice))) = 2%nat.
Proof.
  split; [reflexivity|].
  apply (proj2 (host_sample_count (Nvml oneDevice))). reflexivity.
Defined.

(** ** The join, further *)

(** X8.  The join runs pod after pod and, for a pod, record after record:
    over a pod list (or a record list) made of two parts it is the run over
    the first part followed by the run over the second.  So a panic in the
    first part ends the scrape there, and the pods of the second part get
    no sample at all. *)
Theorem join_runs_in_sequence ps ps' cs cs' pod nowSec :
  collectContainers (ps ++ ps') cs nowSec
  = bind (collectContainers ps cs nowSec)
      (fun _ => collectContainers ps' cs nowSec)
  /\ forM_ (cs ++ cs') (collectRecord pod nowSec)
     = bind (forM_ cs (collectRecord pod nowSec))
         (fun _ => forM_ cs' (collectRecord pod nowSec))
  /\ (panicked (collectContainers ps cs nowSec) = true ->
      collectContainers (ps ++ ps') cs nowSec
      = collectContainers ps cs nowSec).
Proof.
  assert (E : collectContainers (ps ++ ps') cs nowSec
              = bind (collectContainers ps cs nowSec)
                  (fun _ => collectContainers ps' cs nowSec))
    by apply forM_app.
  split; [exact E|]. split; [apply forM_app|].
  intros P. rewrite E. unfold panicked in P.
  destruct (collectContainers ps cs nowSec) as [t [u|]];
    [discriminate|reflexivity].
Qed.

Lemma join_runs_in_sequence_witness :
  panicked
    (collectContainers [pod_a]
       [record_c1 (Some (oneSlot "GPU-short" 0 0 0 0 0))] 0) = true
  /\ collectContainers ([pod_a] ++ [pod_a])
       [record_c1 (Some (oneSlot "GPU-short" 0 0 0 0 0))] 0
     = collectContainers [pod_a]
         [record_c1 (Some (oneSlot "GPU-short" 0 0 0 0 0))] 0.
Proof.
  split; [reflexivity|].
  apply (proj2 (proj2 (join_runs_in_sequence [pod_a] [pod_a]
           [record_c1 (Some (oneSlot "GPU-short" 0 0 0 0 0))] []
           pod_a 0))).
  reflexivity.
Defined.

(** X9.  The labels of a pod never reach a sample: a scrape over pods
    that carry other labels delivers the same samples and panics in the
    same cases. *)
Theorem pod_labels_do_not_reach_samples cc cc' w
    (g : Pod.t -> list (string * string)) :
  pods cc' = map (fun pod => relabel (g pod) pod) (pods cc) ->
  records cc' = records cc ->
  scrape cc' w = scrape cc w /\ crashed cc' w = crashed cc w.
Proof.
  intros Hp Hr.
  destruct (same_on_scrape (fun _ => true) cc' cc w w eq_refl) as [S P].
  - rewrite Hp, Hr. unfold collectContainers. rewrite forM_map.
    apply same_on_forM. intros pod _. apply same_on_forM. intros c _.
    unfold collectRecord. destruct (Info c) as [info|];
      [|apply same_on_refl].
    cbn [relabel Pod.UID Pod.Name Pod.Namespace Pod.Labels Pod.Containers].
    destruct (negb (strings_Compare (Pod.UID pod) (PodUID c) =? 0));
      [apply same_on_refl|].
    apply same_on_bind; [split; reflexivity|]. apply same_on_refl.
  - rewrite !filter_all in S. auto.
Qed.

Lemma pod_labels_do_not_reach_samples_witness :
  scrape
    (collectorOf [relabel [("team-a", "x-y")]%string pod_a] None
       (registryOf [record_c1 (Some (oneSlot uuid40 0 0 0 0 0))]))
    oneDevice
  = scrape (scenario 0 0 0 0 0) oneDevice.
Proof.
  apply (pod_labels_do_not_reach_samples (scenario 0 0 0 0 0)
           (collectorOf [relabel [("team-a", "x-y")]%string pod_a] None
              (registryOf [record_c1 (Some (oneSlot uuid40 0 0 0 0 0))]))
           oneDevice (fun _ => [("team-a", "x-y")]%string));
    reflexivity.
Defined.

(** X10.  The clock reaches the Device_last_kernel_of_container samples
    only: two scrapes that differ in the time alone deliver the same
    samples of every other metric, in the same order, and panic in the same
    cases. *)
Theorem clock_reaches_last_kernel_only cc w now :
  filter (fun m => negb (is_last_kernel m)) (scrape cc (at_time now w))
  = filter (fun m => negb (is_last_kernel m)) (scrape cc w)
  /\ crashed cc (at_time now w) = crashed cc w.
Proof.
  apply same_on_scrape; [reflexivity|].
  cbn [at_time Now_Unix]. unfold collectContainers.
  apply same_on_forM. intros pod _. apply same_on_forM. intros c _.
  unfold collectRecord. destruct (Info c) as [info|]; [|apply same_on_refl].
  destruct (negb (strings_Compare (Pod.UID pod) (PodUID c) =? 0));
    [apply same_on_refl|].
  apply same_on_bind; [apply same_on_refl|].
  apply same_on_forM. intros ctr _. unfold collectCtr.
  destruct
    (negb (strings_Compare (Container.Name ctr) (ContainerName c) =? 0));
    [apply same_on_refl|].
  apply same_on_bind; [apply same_on_refl|].
  apply same_on_forM. intros i _.
  destruct (cut_ok (DeviceUUID info i)) eqn:L.
  - destruct (collectSlot_run pod (ContainerName c) info now i L)
      as [E P].
    destruct (collectSlot_run pod (ContainerName c) info (Now_Unix w) i L)
      as [E' P'].
    split; [|congruence]. rewrite E, E'. unfold slotSamples.
    rewrite !filter_app. f_equal.
    destruct (0 <? LastKernelTime info); reflexivity.
  - destruct (collectSlot_short pod (ContainerName c) info now i L)
      as [E P].
    destruct (collectSlot_short pod (ContainerName c) info (Now_Unix w) i L)
      as [E' P'].
    split; [|congruence]. unfold samples. now rewrite E, E'.
Qed.

(** ** Describe and Collect *)

(** X11.  [Describe] announces four descriptors, and every host sample of a
    scrape has one of them.  It does not announce the descriptors of
    Device_memory_desc_of_container, Device_utilization_desc_of_container
    and Device_last_kernel_of_container: every sample of a scrape has an
    announced descriptor or one of these three, and a scrape with a
    matched slot, every UUID of the registry yielding a label (at least 40
    bytes, the first 40 valid UTF-8), delivers a sample that [Describe] did
    not announce. *)
Theorem describe_leaves_out_three cc w :
  let silent := [ctrDeviceMemorydesc; ctrDeviceUtilizationdesc;
                 ctrDeviceLastKernelDesc] in
  (forall d, In d silent -> ~ In d (Describe cc))
  /\ (forall m, In m (scrape cc w) ->
        In (desc m) (Describe cc) \/ In (desc m) silent)
  /\ (forall m, In m (samples (collectHost (Nvml w))) ->
        In (desc m) (Describe cc))
  /\ (records_ok (records cc) = true ->
      forall pod c info ctr i,
        In pod (pods cc) -> In c (records cc) -> Info c = Some info ->
        In ctr (Pod.Containers pod) -> matched pod c ctr = true ->
        0 <= i < DeviceNum info ->
        exists m, In m (scrape cc w) /\ ~ In (desc m) (Describe cc)).
Proof.
  intros silent.
  assert (S : forall d, In d silent -> ~ In d (Describe cc)).
  { intros d [<-|[<-|[<-|[]]]] H; simpl in H;
      repeat (destruct H as [H|H]; [discriminate H|]); exact H. }
  assert (Hh : forall m, In m (hostSamples (Nvml w)) ->
                         In (desc m) (Describe cc)).
  { intros m H. apply In_hostSamples in H. destruct H as [_ [ii [_ H]]].
    destruct (deviceSamples_inv _ _ _ H) as [[_ ->]|[_ ->]]; simpl; auto. }
  split; [exact S|]. split; [|split].
  - intros m H. apply scrape_inv in H. destruct H as [H|H].
    + left. now apply Hh.
    + apply In_joinSamples in H.
      destruct H as [pod [c [info [ctr [i [_ [_ [_ [_ [_ [_ H]]]]]]]]]]].
      unfold slotSamples, lastKernelSample in H. apply in_app_or in H.
      destruct H as [H|H].
      * simpl in H. destruct H as [<-|[<-|[<-|[<-|[]]]]]; simpl; auto 10.
      * destruct (0 <? LastKernelTime info); simpl in H; [|easy].
        destruct H as [<-|[]]. simpl. auto 10.
  - intros m H. apply Hh. now rewrite <- (proj1 (collectHost_run (Nvml w))).
  - intros Hok pod c info ctr i Hp Hc Hi Hctr Hm Hr.
    exists (mkMetric ctrDeviceUtilizationdesc GaugeValue
              (DeviceSmUtil info i)
              (baseLabels pod (ContainerName c) info i)).
    split; [|apply S; simpl; auto].
    apply scrape_join; [exact Hok|]. apply In_joinSamples.
    exists pod, c, info, ctr, i. repeat split; auto; try lia.
    unfold slotSamples. apply in_or_app. left. simpl. auto.
Qed.

Lemma describe_leaves_out_three_witness :
  records_ok (records (scenario 0 0 0 0 0)) = true
  /\ exists m, In m (scrape (scenario 0 0 0 0 0) oneDevice)
               /\ ~ In (desc m) (Describe (scenario 0 0 0 0 0)).
Proof.
  split; [reflexivity|].
  apply (proj2 (proj2 (proj2
           (describe_leaves_out_three (scenario 0 0 0 0 0) oneDevice)))
           eq_refl pod_a (record_c1 (Some (oneSlot uuid40 0 0 0 0 0)))
           (oneSlot uuid40 0 0 0 0 0) {| Container.Name := "c1" |} 0);
    try reflexivity; simpl; auto; lia.
Defined.

(** ** The label map *)

(** [strings.ReplaceAll] at single bytes keeps the length of the
    string, leaves no [old] byte in the result when [new] is another byte,
    and returns a string without [old] as it is; so replacing twice is
    replacing once. *)
Theorem ReplaceAll_bytes (s : string) (old new : ascii) :
  String.length (ReplaceAll s old new) = String.length s
  /\ (old <> new -> occurs old (ReplaceAll s old new) = false)
  /\ (occurs old s = false -> ReplaceAll s old new = s)
  /\ (old <> new ->
      ReplaceAll (ReplaceAll s old new) old new = ReplaceAll s old new).
Proof.
  assert (L : String.length (ReplaceAll s old new) = String.length s).
  { induction s as [|c s IH]; simpl; [reflexivity|now rewrite IH]. }
  assert (F : old <> new -> occurs old (ReplaceAll s old new) = false).
  { intros N. clear L. induction s as [|c s IH]; simpl; [reflexivity|].
    rewrite IH, orb_false_r. destruct (Ascii.eqb c old) eqn:Hc.
    - apply Ascii.eqb_neq. congruence.
    - exact Hc. }
  assert (I : forall t, occurs old t = false -> ReplaceAll t old new = t).
  { induction t as [|c t IH]; simpl; [reflexivity|].
    intros H. apply orb_false_iff in H. destruct H as [Hc Ht].
    now rewrite Hc, IH. }
  repeat split; auto.
Qed.

Lemma ReplaceAll_bytes_witness :
  ReplaceAll (ReplaceAll "gpu-node-1" "-" "_") "-" "_"
  = ReplaceAll "gpu-node-1" "-" "_".
Proof.
  apply (proj2 (proj2 (proj2 (ReplaceAll_bytes "gpu-node-1" "-" "_")))).
  discriminate.
Defined.

Lemma In_assign k v m kv :
  In kv (assign k v m) -> kv = (k, v) \/ In kv m.
Proof.
  induction m as [|[k' v'] m IH]; simpl.
  - intros [<-|[]]. now left.
  - destruct (String.eqb k k').
    + intros [<-|H]; auto.
    + intros [<-|H]; auto. destruct (IH H); auto.
Qed.

Lemma keys_assign k v m k' :
  In k' (map fst (assign k v m)) -> k' = k \/ In k' (map fst m).
Proof.
  intros H. apply in_map_iff in H. destruct H as [[a b] [<- H]].
  apply In_assign in H. destruct H as [[= -> ->]|H]; [now left|right].
  apply in_map_iff. now exists (a, b).
Qed.

Lemma NoDup_assign k v m :
  NoDup (map fst m) -> NoDup (map fst (assign k v m)).
Proof.
  induction m as [|[k' v'] m IH]; simpl; intros H.
  - repeat constructor. intros [].
  - apply NoDup_cons_iff in H. destruct H as [Hn Hm].
    destruct (String.eqb_spec k k') as [->|N]; simpl.
    + now constructor.
    + constructor; [|now apply IH]. intros H.
      apply keys_assign in H. destruct H as [->|H]; auto.
Qed.

Lemma lookup_assign k v m : lookup k (assign k v m) = Some v.
Proof.
  induction m as [|[k' v'] m IH]; simpl.
  - now rewrite String.eqb_refl.
  - destruct (String.eqb k k') eqn:E; simpl.
    + now rewrite String.eqb_refl.
    + now rewrite E.
Qed.

Lemma length_assign k v m :
  (List.length (assign k v m) <= S (List.length m))%nat.
Proof.
  induction m as [|[k' v'] m IH]; simpl; [lia|].
  destruct (String.eqb k k'); simpl; lia.
Qed.

Lemma fold_left_invariant {A B : Type} (f : A -> B -> A) (P : A -> Prop)
    (l : list B) :
  (forall a x, In x l -> P a -> P (f a x)) ->
  forall a, P a -> P (fold_left f l a).
Proof.
  induction l as [|x l IH]; simpl; intros H a Pa; [exact Pa|].
  apply IH.
  - intros b y Hy. apply H. now right.
  - apply H; [now left|exact Pa].
Qed.

(** X12.  The map [podlabels] built for a matched container has no "-" in
    any key or value: each entry is a label of the pod with "-" replaced by
    "_" on both sides.  It has one entry per key and at most as many
    entries as the pod has labels, and the label ranged over last is found
    under its normalised key, whatever was there before. *)
Theorem podlabels_are_normalised (labels : list (string * string)) :
  (forall k v, In (k, v) (podlabels labels) ->
     occurs "-" k = false /\ occurs "-" v = false
     /\ exists k0 v0, In (k0, v0) labels
                      /\ k = ReplaceAll k0 "-" "_"
                      /\ v = ReplaceAll v0 "-" "_")
  /\ NoDup (map fst (podlabels labels))
  /\ (List.length (podlabels labels) <= List.length labels)%nat
  /\ (forall k v,
        lookup (ReplaceAll k "-" "_") (podlabels (labels ++ [(k, v)]))
        = Some (ReplaceAll v "-" "_")).
Proof.
  assert (D : "-"%char <> "_"%char) by discriminate.
  split; [|split; [|split]].
  - unfold podlabels.
    apply (fold_left_invariant _
             (fun m => forall k v, In (k, v) m ->
                occurs "-" k = false /\ occurs "-" v = false
                /\ exists k0 v0, In (k0, v0) labels
                                 /\ k = ReplaceAll k0 "-" "_"
                                 /\ v = ReplaceAll v0 "-" "_")).
    + intros m [k0 v0] Hin Hm k v H. apply In_assign in H.
      destruct H as [[= -> ->]|H]; [|now apply Hm].
      cbn [fst snd]. split; [now apply ReplaceAll_bytes|].
      split; [now apply ReplaceAll_bytes|]. now exists k0, v0.
    + intros k v [].
  - unfold podlabels.
    apply (fold_left_invariant _ (fun m => NoDup (map fst m))).
    + intros m kv _. apply NoDup_assign.
    + constructor.
  - unfold podlabels.
    assert (G : forall l acc,
              (List.length
                 (fold_left
                    (fun m kv =>
                       assign (ReplaceAll (fst kv) "-" "_")
                         (ReplaceAll (snd kv) "-" "_") m) l acc)
               <= List.length acc + List.length l)%nat).
    { induction l as [|x l IH]; intros acc; simpl; [lia|].
      specialize (IH (assign (ReplaceAll (fst x) "-" "_")
                        (ReplaceAll (snd x) "-" "_") acc)).
      pose proof (length_assign (ReplaceAll (fst x) "-" "_")
                    (ReplaceAll (snd x) "-" "_") acc). lia. }
    apply (G labels []).
  - intros k v. unfold podlabels. rewrite fold_left_app. simpl.
    apply lookup_assign.
Qed.

Lemma podlabels_are_normalised_witness :
  In ("app_name", "train_job")%string
     (podlabels [("app-name", "train-job")]%string)
  /\ occurs "-" "app_name" = false.
Proof.
  assert (H : In ("app_name", "train_job")%string
                (podlabels [("app-name", "train-job")]%string))
    by (now left).
  split; [exact H|].
  apply (proj1 (podlabels_are_normalised [("app-name", "train-job")]%string)
           "app_name"%string "train_job"%string H).
Defined.

(** ** The log *)



Lemma trace_forM_In {A : Type} (l : list A) (body : A -> M unit)
    (x : A) (e : Event) :
  (forall y, In y l -> panicked (body y) = false) ->
  In x l -> In e (trace (body x)) -> In e (trace (forM_ l body)).
Proof.
  induction l as [|y l IH]; intros P Hx He; [destruct Hx|].
  cbn [forM_]. rewrite trace_bind. apply in_or_app.
  destruct Hx as [->|Hx]; [now left|right].
  assert (Py : panicked (body y) = false) by (apply P; now left).
  unfold panicked in Py. destruct (snd (body y)); [|discriminate].
  apply IH; auto. intros z Hz. apply P. now right.
Qed.


(** The trace of a scrape has the trace of the host phase in it. *)
Lemma host_trace_in_scrape cc w e :
  In e (trace (collectHost (Nvml w))) -> In e (trace (snd (Collect cc w))).
Proof.
  intros H. unfold Collect.
  destruct (Update (containerLister (ClusterManager_ cc))) as [lister uerr].
  cbn [snd]. rewrite trace_bind. cbn [snd klog emit].
  apply in_or_app. right. rewrite trace_bind. apply in_or_app. right.
  destruct uerr; cbn [snd klog emit ret]; rewrite trace_bind;
    apply in_or_app; now left.
Qed.



Lemma device_trace_logs n ii :
  let t := trace (collectDevice n ii) in
  (handle_ok n ii = false ->
   In (Klog (ErrHandle (snd (nvml.DeviceGetHandleByIndex n ii)))) t)
  /\ (memory_ok n ii = false ->
      In (Klog (ErrMemory (snd (nvml.GetMemoryInfo (handle n ii))))) t)
  /\ (uuid_ok n ii = false ->
      In (Klog (ErrUUID (snd (nvml.GetUUID (handle n ii))))) t)
  /\ (utilization_ok n ii = false ->
      In (Klog (ErrUtilization
                  (snd (nvml.GetUtilizationRates (handle n ii))))) t).
Proof.
  unfold collectDevice, handle_ok, memory_ok, uuid_ok, utilization_ok,
    handle.
  destruct (nvml.DeviceGetHandleByIndex n ii) as [hdev r0].
  destruct hdev as [[mem r1] [uuid r2] [util r3]].
  cbn [fst snd nvml.GetMemoryInfo nvml.GetUUID nvml.GetUtilizationRates].
  destruct (r0 =? nvml.SUCCESS), (r1 =? nvml.SUCCESS),
    (r2 =? nvml.SUCCESS), (r3 =? nvml.SUCCESS); cbn;
    repeat split; intros H; try discriminate H; auto 10.
Qed.



(** X14.  Every failed NVML call of the host phase is in the log of the
    scrape with the status it returned: a failed Init, a failed device
    count (after which no device is read and no host sample is sent), and,
    for every enumerated device, a failed handle lookup, memory read, UUID
    read and utilization read. *)
Theorem failed_nvml_calls_are_logged cc w :
  let n := Nvml w in
  let t := trace (snd (Collect cc w)) in
  ((nvml.Init n =? nvml.SUCCESS) = false -> In (Klog (ErrInit (nvml.Init n))) t)
  /\ (count_ok n = false ->
      In (Klog (ErrDeviceGetCount (snd (nvml.DeviceGetCount n)))) t
      /\ samples (collectHost n) = [])
  /\ (count_ok n = true ->
      forall ii, 0 <= ii < fst (nvml.DeviceGetCount n) ->
        (handle_ok n ii = false ->
         In (Klog (ErrHandle (snd (nvml.DeviceGetHandleByIndex n ii)))) t)
        /\ (memory_ok n ii = false ->
            In (Klog (ErrMemory (snd (nvml.GetMemoryInfo (handle n ii))))) t)
        /\ (uuid_ok n ii = false ->
            In (Klog (ErrUUID (snd (nvml.GetUUID (handle n ii))))) t)
        /\ (utilization_ok n ii = false ->
            In (Klog (ErrUtilization
                        (snd (nvml.GetUtilizationRates (handle n ii))))) t)).
Proof.
  intros n t. split; [|split].
  - intros Hi. apply host_trace_in_scrape. fold n. unfold collectHost.
    rewrite Hi, trace_bind. apply in_or_app. left. now left.
  - intros Hc. split.
    + apply host_trace_in_scrape. fold n. unfold collectHost, count_ok in *.
      destruct (nvml.DeviceGetCount n) as [devnum r]. cbn [fst snd] in *.
      rewrite Hc, trace_bind. apply in_or_app. right.
      destruct (nvml.Init n =? nvml.SUCCESS); cbn; auto.
    + rewrite (proj1 (collectHost_run n)). unfold hostSamples.
      now rewrite Hc.
  - intros Hc ii Hr.
    assert (T : forall e, In e (trace (collectDevice n ii)) -> In e t).
    { intros e He. apply host_trace_in_scrape. fold n.
      unfold collectHost, count_ok in *.
      destruct (nvml.DeviceGetCount n) as [devnum r]. cbn [fst snd] in *.
      rewrite Hc, trace_bind. apply in_or_app. right.
      destruct (nvml.Init n =? nvml.SUCCESS); cbn [snd klog emit ret];
        apply (trace_forM_In (upto devnum) (collectDevice n) ii e);
        [ intros y _; apply collectDevice_run | now apply In_upto | exact He
        | intros y _; apply collectDevice_run | now apply In_upto
        | exact He ]. }
    destruct (device_trace_logs n ii) as [L1 [L2 [L3 L4]]].
    repeat split; intros F; apply T; auto.
Qed.

Lemma failed_nvml_calls_are_logged_witness :
  count_ok (Nvml uuidReadFails) = true
  /\ uuid_ok (Nvml uuidReadFails) 0 = false
  /\ In (Klog (ErrUUID ERROR_UNKNOWN))
        (trace (snd (Collect idle uuidReadFails))).
Proof.
  split; [reflexivity|]. split; [reflexivity|].
  apply (proj2 (proj2 (failed_nvml_calls_are_logged idle uuidReadFails))
           eq_refl 0 ltac:(cbn; lia)).
  reflexivity.
Defined.
